(** * mongodb_mcp: the fallback query-resolution controller

    A shallow embedding of [src/agent.py] and [src/gg.py].  The two scripts
    are two variants of one program: [make_case_insensitive],
    [get_collection_schema] and the body of [main] are the same in both,
    while [suggest_db_collection_candidates], [try_query_with_match] and
    [try_query_with_aggregation] differ.  The shared functions are embedded
    once; the differing ones once per script, in [Module Agent] and
    [Module GG].

    Python values are an inductive type of JSON-shaped data, Python
    exceptions are values of [exn], and the external collaborators (LLM
    completion, MCP tools, the agent runtime) are an oracle that answers a
    call from the history of the run so far.  Effectful code lives in a
    small state-and-exception monad over that history. *)

From Stdlib Require Import String Ascii List ZArith Bool Lia.
Import ListNotations.
Local Open Scope string_scope.
Local Open Scope list_scope.

(* ================================================================== *)
(** ** Python values and exceptions *)

(** JSON-shaped Python data.  A [dict] is kept as its items in insertion
    order; keys are [str].  Numbers are integers. *)
#[local] Unset Elimination Schemes.
Inductive value : Type :=
| VNone
| VBool (b : bool)
| VInt (z : Z)
| VStr (s : string)
| VList (l : list value)
| VDict (d : list (string * value)).
#[local] Set Elimination Schemes.

(** Every exception below is a subclass of [Exception], so each
    [except Exception] of the source catches all of them.  [External] is an
    error raised inside a collaborator. *)
Inductive exn : Type :=
| KeyError (k : string)
| TypeError
| AttributeError
| ValueError (msg : string)
| JSONDecodeError
| External (msg : string).

(** Pure code that may raise. *)
Definition res (A : Type) : Type := (exn + A)%type.

Definition rbind {A B} (c : res A) (f : A -> res B) : res B :=
  match c with
  | inl e => inl e
  | inr a => f a
  end.

Declare Scope res_scope.
Delimit Scope res_scope with res.
Notation "x <-- c ;; k" := (rbind c (fun x => k))
  (at level 61, c at next level, right associativity) : res_scope.

(** [bool(v)]: what [if v:] tests. *)
Definition truthy (v : value) : bool :=
  match v with
  | VNone => false
  | VBool b => b
  | VInt z => negb (Z.eqb z 0)
  | VStr s => negb (String.eqb s "")
  | VList l => match l with [] => false | _ => true end
  | VDict d => match d with [] => false | _ => true end
  end.

Definition is_str (v : value) : bool :=
  match v with VStr _ => true | _ => false end.

Definition is_dict (v : value) : bool :=
  match v with VDict _ => true | _ => false end.

(** [needle in hay] on two strings. *)
Fixpoint contains (needle hay : string) : bool :=
  String.prefix needle hay ||
  match hay with
  | EmptyString => false
  | String _ hay' => contains needle hay'
  end.

(** Lookup in the items of a dict. *)
Fixpoint lookup (k : string) (d : list (string * value)) : option value :=
  match d with
  | [] => None
  | (k', v) :: d' => if String.eqb k k' then Some v else lookup k d'
  end.

(** [d[k] = v]: an existing key keeps its place, a new key goes last. *)
Fixpoint dict_set (d : list (string * value)) (k : string) (v : value)
  : list (string * value) :=
  match d with
  | [] => [(k, v)]
  | (k', v') :: d' =>
      if String.eqb k k' then (k', v) :: d' else (k', v') :: dict_set d' k v
  end.

Definition keys (d : list (string * value)) : list string := map fst d.

(** [v[k]] with a string subscript. *)
Definition getitem (v : value) (k : string) : res value :=
  match v with
  | VDict d => match lookup k d with
               | Some x => inr x
               | None => inl (KeyError k)
               end
  | _ => inl TypeError
  end.

(** [v.get(k, default)]. *)
Definition dict_get (v : value) (k : string) (default : value) : res value :=
  match v with
  | VDict d => match lookup k d with
               | Some x => inr x
               | None => inr default
               end
  | _ => inl AttributeError
  end.

Fixpoint chars (s : string) : list value :=
  match s with
  | EmptyString => []
  | String c s' => VStr (String c EmptyString) :: chars s'
  end.

(** What [for x in v] ranges over. *)
Definition iter (v : value) : res (list value) :=
  match v with
  | VList l => inr l
  | VDict d => inr (map (fun kv => VStr (fst kv)) d)
  | VStr s => inr (chars s)
  | _ => inl TypeError
  end.

Definition is_the_str (k : string) (v : value) : bool :=
  match v with VStr s => String.eqb k s | _ => false end.

(** [k in c] for a string [k]. *)
Definition py_in (k : string) (c : value) : res bool :=
  match c with
  | VList l => inr (existsb (is_the_str k) l)
  | VDict d => inr (existsb (String.eqb k) (keys d))
  | VStr s => inr (contains k s)
  | _ => inl TypeError
  end.

(** [isinstance(result, str) and needle in result]. *)
Definition str_containing (needle : string) (result : value) : bool :=
  match result with
  | VStr s => contains needle s
  | _ => false
  end.

(* ================================================================== *)
(** ** make_case_insensitive (identical in both scripts) *)

(** [{"$regex": v, "$options": "i"}] *)
Definition regex_condition (v : string) : value :=
  VDict [("$regex", VStr v); ("$options", VStr "i")].

(** [k in schema.get("string_fields", [])] *)
Definition in_string_fields (schema : value) (k : string) : res bool :=
  (sf <-- dict_get schema "string_fields" (VList []) ;; py_in k sf)%res.

Fixpoint make_case_insensitive (obj schema : value) {struct obj} : res value :=
  match obj with
  | VDict d =>
      (result <--
         (fix items (l result : list (string * value)) {struct l}
            : res (list (string * value)) :=
            match l with
            | [] => inr result
            | (k, v) :: l' =>
                match v with
                | VStr s =>
                    (b <-- in_string_fields schema k ;;
                     if b : bool
                     then items l' (dict_set result k (regex_condition s))
                     else items l' (dict_set result k v))%res
                | VDict _ =>
                    (r <-- make_case_insensitive v schema ;;
                     items l' (dict_set result k r))%res
                | _ => items l' (dict_set result k v)
                end
            end) d [] ;;
       inr (VDict result))%res
  | _ => inr obj
  end.

(** The loop of [make_case_insensitive] over the items of a dict, as a
    function of its own (the nested [fix] above, named). *)
Fixpoint rewrite_items (schema : value) (l result : list (string * value))
  {struct l} : res (list (string * value)) :=
  match l with
  | [] => inr result
  | (k, v) :: l' =>
      match v with
      | VStr s =>
          (b <-- in_string_fields schema k ;;
           if b : bool
           then rewrite_items schema l' (dict_set result k (regex_condition s))
           else rewrite_items schema l' (dict_set result k v))%res
      | VDict _ =>
          (r <-- make_case_insensitive v schema ;;
           rewrite_items schema l' (dict_set result k r))%res
      | _ => rewrite_items schema l' (dict_set result k v)
      end
  end.

(* ================================================================== *)
(** ** Collaborators, the history of a run, and the monad of the scripts *)

Inductive script : Type := AgentPy | GgPy.

(** The inventory [db_coll_map]: a dict whose keys are the database names as
    the list-databases tool returned them. *)
Definition inventory : Type := list (value * value).

(** The prompts handed to [llm.invoke], by their parts (each is an f-string
    over the request and a [json.dumps] of the second part). *)
Inductive prompt : Type :=
| PlanPrompt (src : script) (user_input : string)
| RankPrompt (src : script) (user_input : string) (db_coll_map : inventory)
| MatchPrompt (src : script) (user_input : string) (schema : value)
| AggPrompt (user_input : string) (schema : value).

(** The calls that leave the program. *)
Inductive call : Type :=
| ListDatabases
    (* client.get_tool("list-databases").ainvoke({}) *)
| ListCollections (db : value)
    (* client.get_tool("list-collections").ainvoke({"database": db}) *)
| LlmInvoke (p : prompt)
    (* llm.invoke(p).content *)
| CollectionSchema (db coll : value)
    (* client.collection_schema(db, coll) *)
| Aggregate (db coll pipeline : value)
    (* client.aggregate(db, coll, pipeline) *)
| AgentRun (user_input : string)
    (* agent.run(user_input) *)
| GetAggregationTool
    (* get_aggregation_tool(client), gg.py *)
| NewToolAgent
    (* MCPAgent(llm=llm, client=client, tools=[aggregation_tool]), gg.py *)
| AgentAinvoke (query : value)
    (* agent.ainvoke({"input": json.dumps(query)}), gg.py *).

(** The lines the scripts print, by their parts. *)
Inductive line : Type :=
| Planning
| Steps (plan : value)
| Executing
| Result (result : value)
| AgentFallback (e : exn)
| SuggestionFailed (e : exn)
| SchemaLoadFailed (db coll : value) (e : exn)
| TryingMatch (db coll : value)
| MatchFailed (db coll : value) (e : exn)
| TryingAggregation (db coll : value)
| AggregationFailed (e : exn)
| AggregationFailedOn (db coll : value) (e : exn)
| SmartMatchResult (db coll result : value)
| AggregationResult (db coll result : value)
| AllRetriesFailed.

Inductive event : Type :=
| Called (c : call) (r : res value)
| Printed (l : line).

(** The history of a run, newest event first. *)
Definition history : Type := list event.

(** What the program runs against: the collaborators, which answer a call
    from the history so far (so the same call may be answered differently
    later), and the two library functions applied to a completion. *)
Record env : Type := {
  oracle : history -> call -> res value;
  json_loads : string -> res value;
  str_strip : string -> string
}.

(** Effectful code: reads and extends the history, returns or raises. *)
Definition M (A : Type) : Type := history -> res A * history.

Definition ret {A} (a : A) : M A := fun h => (inr a, h).

Definition raise {A} (e : exn) : M A := fun h => (inl e, h).

Definition bind {A B} (c : M A) (f : A -> M B) : M B :=
  fun h => match c h with
           | (inl e, h') => (inl e, h')
           | (inr a, h') => f a h'
           end.

(** [try: c  except Exception as e: ...] as a value. *)
Definition attempt {A} (c : M A) : M (res A) :=
  fun h => let (r, h') := c h in (inr r, h').

Definition lift {A} (r : res A) : M A := fun h => (r, h).

Definition print (l : line) : M unit := fun h => (inr tt, Printed l :: h).

Declare Scope m_scope.
Delimit Scope m_scope with M.
Notation "x <- c ;; k" := (bind c (fun x => k))
  (at level 61, c at next level, right associativity) : m_scope.
Notation "c ;; k" := (bind c (fun _ => k))
  (at level 61, right associativity) : m_scope.
Local Open Scope m_scope.

Section Shared.

Variable E : env.

Definition invoke (c : call) : M value :=
  fun h => let r := oracle E h c in (r, Called c r :: h).

(** [json.loads(response.content.strip())] *)
Definition loads_content (content : value) : res value :=
  match content with
  | VStr s => json_loads E (str_strip E s)
  | _ => inl AttributeError
  end.

(** *** get_collection_schema (identical in both scripts) *)

(** [[f["name"] for f in fields if f.get("bsonType") == "string"]] *)
Fixpoint string_fields_of (fields : list value) : res (list value) :=
  match fields with
  | [] => inr []
  | f :: fields' =>
      (bson <-- dict_get f "bsonType" VNone ;;
       if is_the_str "string" bson
       then (name <-- getitem f "name" ;;
             rest <-- string_fields_of fields' ;;
             inr (name :: rest))
       else string_fields_of fields')%res
  end.

Definition get_collection_schema (db coll : value) : M value :=
  schema <- invoke (CollectionSchema db coll) ;;
  lift (fields <-- dict_get schema "fields" (VList []) ;;
        fs <-- iter fields ;;
        string_fields <-- string_fields_of fs ;;
        match schema with
        | VDict d => inr (VDict (dict_set d "string_fields" (VList string_fields)))
        | _ => inl TypeError
        end)%res.

End Shared.

(* ================================================================== *)
(** ** main: one request of the interactive loop (same body in both scripts)

    The three functions in which the scripts differ are parameters here;
    [Agent.main_request] and [GG.main_request] below supply them. *)

(** How one request ends: the line of [main] that printed the result. *)
Inductive resolution : Type :=
| ByAgent (result : value)
| ByMatch (result : value)
| ByAggregation (result : value)
| AllExhausted.

Section Controller.

Variable E : env.
Variable src : script.
Variable suggest_db_collection_candidates : string -> M value.
Variable try_query_with_match : value -> value -> string -> value -> M value.
Variable try_query_with_aggregation : value -> value -> string -> value -> M value.

(** The body of the first [try] of the loop, after the input is read. *)
Definition agent_attempt (user_input : string) : M value :=
  print Planning ;;
  plan <- invoke E (LlmInvoke (PlanPrompt src user_input)) ;;
  print (Steps plan) ;;
  print Executing ;;
  result <- invoke E (AgentRun user_input) ;;
  if str_containing "Found 0" result
  then raise (ValueError "No documents found")
  else print (Result result) ;; ret result.

(** [for candidate in candidates: ... else: ...] *)
Fixpoint candidate_loop (user_input : string) (candidates : list value)
  {struct candidates} : M resolution :=
  match candidates with
  | [] => print AllRetriesFailed ;; ret AllExhausted
  | candidate :: rest =>
      db <- lift (getitem candidate "database") ;;
      coll <- lift (getitem candidate "collection") ;;
      s <- attempt (get_collection_schema E db coll) ;;
      match s with
      | inl schema_error =>
          print (SchemaLoadFailed db coll schema_error) ;;
          candidate_loop user_input rest
      | inr schema =>
          match_result <- try_query_with_match db coll user_input schema ;;
          if truthy match_result
          then print (SmartMatchResult db coll match_result) ;;
               ret (ByMatch match_result)
          else
            agg_result <- try_query_with_aggregation db coll user_input schema ;;
            if truthy agg_result
            then print (AggregationResult db coll agg_result) ;;
                 ret (ByAggregation agg_result)
            else candidate_loop user_input rest
      end
  end.

(** The retry path below the first [try]. *)
Definition fallback (user_input : string) : M resolution :=
  candidates <- suggest_db_collection_candidates user_input ;;
  cs <- lift (iter candidates) ;;
  candidate_loop user_input cs.

Definition main_request (user_input : string) : M resolution :=
  r <- attempt (agent_attempt user_input) ;;
  match r with
  | inr result => ret (ByAgent result)
  | inl e => print (AgentFallback e) ;; fallback user_input
  end.

End Controller.

(** The fallback candidate of both scripts. *)
Definition default_candidates : value :=
  VList [VDict [("database", VStr "car_database"); ("collection", VStr "cars")]].

(** *** The inventory dict *)

Definition hashable (v : value) : bool :=
  match v with
  | VList _ | VDict _ => false
  | _ => true
  end.

(** [a == b] on two hashable values ([True == 1], [False == 0]). *)
Definition key_eqb (a b : value) : bool :=
  match a, b with
  | VNone, VNone => true
  | VStr s, VStr s' => String.eqb s s'
  | VInt z, VInt z' => Z.eqb z z'
  | VBool x, VBool y => Bool.eqb x y
  | VBool x, VInt z | VInt z, VBool x => Z.eqb z (if x then 1 else 0)
  | _, _ => false
  end.

Fixpoint inventory_set (m : inventory) (k v : value) : inventory :=
  match m with
  | [] => [(k, v)]
  | (k', v') :: m' =>
      if key_eqb k k' then (k', v) :: m' else (k', v') :: inventory_set m' k v
  end.

(** [db_coll_map[db] = v] *)
Definition setitem (m : inventory) (db v : value) : res inventory :=
  if hashable db then inr (inventory_set m db v) else inl TypeError.

Fixpoint map_res {A B} (f : A -> res B) (l : list A) : res (list B) :=
  match l with
  | [] => inr []
  | x :: l' => (y <-- f x ;; ys <-- map_res f l' ;; inr (y :: ys))%res
  end.

(** [[x["name"] for x in holder[field]]] *)
Definition names_of (holder : value) (field : string) : res (list value) :=
  (xs <-- getitem holder field ;;
   l <-- iter xs ;;
   map_res (fun x => getitem x "name") l)%res.

(* ================================================================== *)
(** ** src/agent.py *)

Module Agent.
Section Script.

Variable E : env.

(** The [for db in db_names] loop: no handler of its own, so an error here
    is caught by the [except] of the whole function. *)
Fixpoint collect (db_names : list value) (db_coll_map : inventory)
  {struct db_names} : M inventory :=
  match db_names with
  | [] => ret db_coll_map
  | db :: rest =>
      colls <- invoke E (ListCollections db) ;;
      m <- lift (names <-- names_of colls "collections" ;;
                 setitem db_coll_map db (VList names))%res ;;
      collect rest m
  end.

Definition suggest_db_collection_candidates (user_input : string) : M value :=
  r <- attempt
         (dbs <- invoke E ListDatabases ;;
          db_names <- lift (names_of dbs "databases") ;;
          db_coll_map <- collect db_names [] ;;
          suggestions <-
            invoke E (LlmInvoke (RankPrompt AgentPy user_input db_coll_map)) ;;
          lift (loads_content E suggestions)) ;;
  match r with
  | inr candidates => ret candidates
  | inl e => print (SuggestionFailed e) ;; ret default_candidates
  end.

Definition try_query_with_match (db coll : value) (user_input : string)
  (schema : value) : M value :=
  r <- attempt
         (print (TryingMatch db coll) ;;
          response <-
            invoke E (LlmInvoke (MatchPrompt AgentPy user_input schema)) ;;
          raw <- lift (loads_content E response) ;;
          final <- lift (make_case_insensitive raw schema) ;;
          result <- invoke E (Aggregate db coll (VList [VDict [("$match", final)]])) ;;
          if str_containing "Found 0" result
          then raise (ValueError "No data found")
          else ret result) ;;
  match r with
  | inr result => ret result
  | inl e => print (MatchFailed db coll e) ;; ret VNone
  end.

Definition try_query_with_aggregation (db coll : value) (user_input : string)
  (schema : value) : M value :=
  r <- attempt
         (print (TryingAggregation db coll) ;;
          response <- invoke E (LlmInvoke (AggPrompt user_input schema)) ;;
          pipeline <- lift (loads_content E response) ;;
          invoke E (Aggregate db coll pipeline)) ;;
  match r with
  | inr result => ret result
  | inl e => print (AggregationFailed e) ;; ret VNone
  end.

Definition main_request : string -> M resolution :=
  main_request E AgentPy suggest_db_collection_candidates
    try_query_with_match try_query_with_aggregation.

End Script.
End Agent.

(* ================================================================== *)
(** ** src/gg.py *)

Module GG.
Section Script.

Variable E : env.

(** The [for db in db_names] loop, with its own [try ... except: continue]. *)
Fixpoint collect (db_names : list value) (db_coll_map : inventory)
  {struct db_names} : M inventory :=
  match db_names with
  | [] => ret db_coll_map
  | db :: rest =>
      r <- attempt
             (colls <- invoke E (ListCollections db) ;;
              lift (names <-- names_of colls "collections" ;;
                    setitem db_coll_map db (VList names))%res) ;;
      match r with
      | inr m => collect rest m
      | inl _ => collect rest db_coll_map
      end
  end.

Definition suggest_db_collection_candidates (user_input : string) : M value :=
  r <- attempt
         (dbs <- invoke E ListDatabases ;;
          db_names <- lift (names_of dbs "databases") ;;
          db_coll_map <- collect db_names [] ;;
          suggestions <-
            invoke E (LlmInvoke (RankPrompt GgPy user_input db_coll_map)) ;;
          lift (loads_content E suggestions)) ;;
  match r with
  | inr candidates => ret candidates
  | inl e => print (SuggestionFailed e) ;; ret default_candidates
  end.

(** The test of the result reads ["F`ound 0"] in this script. *)
Definition try_query_with_match (db coll : value) (user_input : string)
  (schema : value) : M value :=
  r <- attempt
         (print (TryingMatch db coll) ;;
          response <-
            invoke E (LlmInvoke (MatchPrompt GgPy user_input schema)) ;;
          raw <- lift (loads_content E response) ;;
          match_stage <- lift (make_case_insensitive raw schema) ;;
          result <-
            invoke E (Aggregate db coll (VList [VDict [("$match", match_stage)]])) ;;
          if str_containing "F`ound 0" result
          then raise (ValueError "No data found")
          else ret result) ;;
  match r with
  | inr result => ret result
  | inl e => print (MatchFailed db coll e) ;; ret VNone
  end.

(** The query handed to the tool agent:
    [{"collection": coll, "pipeline": [{"$match": {"$text": {"$search": user_input}}}]}] *)
Definition text_search_query (coll : value) (user_input : string) : value :=
  VDict [("collection", coll);
         ("pipeline",
          VList [VDict [("$match",
                         VDict [("$text",
                                 VDict [("$search", VStr user_input)])])]])].

Definition try_query_with_aggregation (db coll : value) (user_input : string)
  (schema : value) : M value :=
  r <- attempt
         (print (TryingAggregation db coll) ;;
          invoke E GetAggregationTool ;;
          invoke E NewToolAgent ;;
          invoke E (AgentAinvoke (text_search_query coll user_input))) ;;
  match r with
  | inr result => ret result
  | inl e => print (AggregationFailedOn db coll e) ;; ret VNone
  end.

Definition main_request : string -> M resolution :=
  main_request E GgPy suggest_db_collection_candidates
    try_query_with_match try_query_with_aggregation.

End Script.
End GG.

(* ================================================================== *)
(** ** Helper definitions for the statements below *)

(** What the loop of [make_case_insensitive] stores under key [k] for the
    value [v]: the three branches of its [if]. *)
Definition rewrite_value (schema : value) (k : string) (v : value) : res value :=
  match v with
  | VStr s =>
      (b <-- in_string_fields schema k ;;
       inr (if b : bool then regex_condition s else v))%res
  | VDict _ => make_case_insensitive v schema
  | _ => inr v
  end.

(** An item the rewrite leaves as it is. *)
Definition settled (schema : value) (kv : string * value) : Prop :=
  rewrite_value schema (fst kv) (snd kv) = inr (snd kv).

(** Storing the items of [l] one by one into [acc]. *)
Definition store_all (l acc : list (string * value)) : list (string * value) :=
  fold_left (fun a kv => dict_set a (fst kv) (snd kv)) l acc.

(** The body of the [for] loop of [main] for one candidate: [Some r] when it
    leaves the loop by [break] after printing [r], [None] when it goes on
    to the next candidate. *)
Definition candidate_body (E : env)
  (try_query_with_match try_query_with_aggregation
     : value -> value -> string -> value -> M value)
  (user_input : string) (candidate : value) : M (option resolution) :=
  db <- lift (getitem candidate "database") ;;
  coll <- lift (getitem candidate "collection") ;;
  s <- attempt (get_collection_schema E db coll) ;;
  match s with
  | inl schema_error =>
      print (SchemaLoadFailed db coll schema_error) ;; ret None
  | inr schema =>
      match_result <- try_query_with_match db coll user_input schema ;;
      if truthy match_result
      then print (SmartMatchResult db coll match_result) ;;
           ret (Some (ByMatch match_result))
      else
        agg_result <- try_query_with_aggregation db coll user_input schema ;;
        if truthy agg_result
        then print (AggregationResult db coll agg_result) ;;
             ret (Some (ByAggregation agg_result))
        else ret None
  end.

(** The ways the [try] block of agent.py's [try_query_with_match] ends in
    its [except] branch, each with the exception caught and the history at
    that point: the completion raises, its text does not parse, the rewrite
    raises, the aggregation raises, or the aggregation returns a text that
    contains ["Found 0"]. *)
Inductive match_attempt_fails (E : env) (db coll : value) (user_input : string)
  (schema : value) (h : history) : exn -> history -> Prop :=
| completion_raises e :
    let h1 := Printed (TryingMatch db coll) :: h in
    let p := LlmInvoke (MatchPrompt AgentPy user_input schema) in
    oracle E h1 p = inl e ->
    match_attempt_fails E db coll user_input schema h e (Called p (inl e) :: h1)
| completion_unparsed content e :
    let h1 := Printed (TryingMatch db coll) :: h in
    let p := LlmInvoke (MatchPrompt AgentPy user_input schema) in
    oracle E h1 p = inr content ->
    loads_content E content = inl e ->
    match_attempt_fails E db coll user_input schema h e
      (Called p (inr content) :: h1)
| rewrite_raises content raw e :
    let h1 := Printed (TryingMatch db coll) :: h in
    let p := LlmInvoke (MatchPrompt AgentPy user_input schema) in
    oracle E h1 p = inr content ->
    loads_content E content = inr raw ->
    make_case_insensitive raw schema = inl e ->
    match_attempt_fails E db coll user_input schema h e
      (Called p (inr content) :: h1)
| aggregate_raises content raw final e :
    let h1 := Printed (TryingMatch db coll) :: h in
    let p := LlmInvoke (MatchPrompt AgentPy user_input schema) in
    let h2 := Called p (inr content) :: h1 in
    let q := Aggregate db coll (VList [VDict [("$match", final)]]) in
    oracle E h1 p = inr content ->
    loads_content E content = inr raw ->
    make_case_insensitive raw schema = inr final ->
    oracle E h2 q = inl e ->
    match_attempt_fails E db coll user_input schema h e (Called q (inl e) :: h2)
| zero_matches content raw final s :
    let h1 := Printed (TryingMatch db coll) :: h in
    let p := LlmInvoke (MatchPrompt AgentPy user_input schema) in
    let h2 := Called p (inr content) :: h1 in
    let q := Aggregate db coll (VList [VDict [("$match", final)]]) in
    oracle E h1 p = inr content ->
    loads_content E content = inr raw ->
    make_case_insensitive raw schema = inr final ->
    oracle E h2 q = inr (VStr s) ->
    contains "Found 0" s = true ->
    match_attempt_fails E db coll user_input schema h
      (ValueError "No data found") (Called q (inr (VStr s)) :: h2).

(** The two scripts' [suggest_db_collection_candidates] and inventory loop,
    by script. *)
Definition suggest_of (src : script) : env -> string -> M value :=
  match src with
  | AgentPy => Agent.suggest_db_collection_candidates
  | GgPy => GG.suggest_db_collection_candidates
  end.

Definition collect_of (src : script)
  : env -> list value -> inventory -> M inventory :=
  match src with
  | AgentPy => Agent.collect
  | GgPy => GG.collect
  end.

(* ================================================================== *)
(** ** Sample runs: the data of the examples *)

Module Sample.

(** [str.strip] on ASCII text. *)
Definition is_space (c : ascii) : bool :=
  let n := nat_of_ascii c in
  ((9 <=? n) && (n <=? 13) || (28 <=? n) && (n <=? 32))%nat.

Fixpoint lstrip (s : string) : string :=
  match s with
  | String c s' => if is_space c then lstrip s' else s
  | EmptyString => EmptyString
  end.

Fixpoint rstrip (s : string) : string :=
  match s with
  | EmptyString => EmptyString
  | String c s' =>
      match rstrip s' with
      | EmptyString => if is_space c then EmptyString else String c EmptyString
      | r => String c r
      end
  end.

Definition strip (s : string) : string := rstrip (lstrip s).

(** [json.loads] on the few texts the examples hand to it. *)
Definition loads (texts : list (string * value)) (s : string) : res value :=
  match lookup s texts with
  | Some v => inr v
  | None => inl JSONDecodeError
  end.

(** Collaborators that answer a call the same way at any time. *)
Definition world (answer : call -> res value) (texts : list (string * value))
  : env :=
  {| oracle := fun _ c => answer c;
     json_loads := loads texts;
     str_strip := strip |}.

Definition car_database : value := VStr "car_database".
Definition cars : value := VStr "cars".

Definition car_candidate : value :=
  VDict [("database", car_database); ("collection", cars)].

Definition field (name bson : string) : value :=
  VDict [("name", VStr name); ("bsonType", VStr bson)].

(** What the schema tool answers for [car_database.cars]. *)
Definition cars_description : value :=
  VDict [("fields", VList [field "make" "string"; field "color" "string";
                           field "year" "int"])].

(** ... and what [get_collection_schema] makes of it. *)
Definition cars_schema : value :=
  VDict [("fields", VList [field "make" "string"; field "color" "string";
                           field "year" "int"]);
         ("string_fields", VList [VStr "make"; VStr "color"])].

Definition red_cars : value :=
  VDict [("color", VStr "red"); ("year", VInt 2020);
         ("owner", VDict [("make", VStr "Fiat"); ("age", VInt 40)])].

Definition red_cars_rewritten : value :=
  VDict [("color", regex_condition "red"); ("year", VInt 2020);
         ("owner", VDict [("make", regex_condition "Fiat"); ("age", VInt 40)])].

Definition two_documents : value :=
  VList [VDict [("make", VStr "Fiat"); ("color", VStr "Red")];
         VDict [("make", VStr "Audi"); ("color", VStr "red")]].

(** The completions of the examples and their parsed values: an empty
    filter, an empty pipeline, and a ranking that is valid JSON but not an
    array of database/collection pairs. *)
Definition texts : list (string * value) :=
  [("{}", VDict []); ("[]", VList []); ("[{}]", VList [VDict []])].

Definition library : value := VStr "library".
Definition books : value := VStr "books".

Definition library_candidate : value :=
  VDict [("database", library); ("collection", books)].

Definition databases : value :=
  VDict [("databases", VList [VDict [("name", VStr "shop")];
                              VDict [("name", library)]])].

Definition collections_of_library : value :=
  VDict [("collections", VList [VDict [("name", books)]])].

(** A schema that lists a field called [$regex] among its string fields. *)
Definition regex_schema : value :=
  VDict [("string_fields", VList [VStr "name"; VStr "$regex"])].

Definition offline : res value := inl (External "connection refused").

(** The schema tool describes a collection without fields. *)
Definition no_fields (c : call) : res value :=
  match c with
  | CollectionSchema _ _ => inr (VDict [("fields", VList [])])
  | _ => offline
  end.

(** The schema tool is down. *)
Definition schema_down (c : call) : res value := offline.

(** The fallback path of the red-cars request: the schema tool describes
    the collection, the completion answers an empty filter and then an empty
    pipeline, the filter finds nothing and the pipeline two documents. *)
Definition red_cars_answers (c : call) : res value :=
  match c with
  | CollectionSchema _ _ => inr cars_description
  | LlmInvoke (MatchPrompt _ _ _) => inr (VStr "{}")
  | LlmInvoke (AggPrompt _ _) => inr (VStr " [] ")
  | Aggregate _ _ (VList []) => inr two_documents
  | Aggregate _ _ _ => inr (VStr "Found 0 documents")
  | _ => offline
  end.

Definition shop_candidate : value :=
  VDict [("database", VStr "shop"); ("collection", VStr "orders")].

(** As [red_cars_answers], but no schema can be had for database [shop]. *)
Definition shop_schema_down (c : call) : res value :=
  match c with
  | CollectionSchema db _ =>
      if is_the_str "shop" db then offline else inr cars_description
  | _ => red_cars_answers c
  end.

(** Both queries run and return nothing: an empty list for the filter, an
    empty text for the pipeline. *)
Definition empty_payloads (c : call) : res value :=
  match c with
  | Aggregate _ _ (VList []) => inr (VStr "")
  | Aggregate _ _ _ => inr (VList [])
  | _ => red_cars_answers c
  end.

Definition request : string := "find red cars".

Definition red_cars_world : env := world red_cars_answers texts.
Definition shop_world : env := world shop_schema_down texts.
Definition empty_world : env := world empty_payloads texts.

(** The history once the candidate [shop.orders] was given up. *)
Definition after_shop : history :=
  [Printed (SchemaLoadFailed (VStr "shop") (VStr "orders")
              (External "connection refused"));
   Called (CollectionSchema (VStr "shop") (VStr "orders")) offline].

(** The histories of the next candidate, [car_database.cars], in
    [shop_world]: once its schema is loaded, once the match was tried, once
    the aggregation was tried. *)
Definition cars_loaded : history :=
  snd (get_collection_schema shop_world car_database cars after_shop).

Definition cars_matched : history :=
  snd (Agent.try_query_with_match shop_world car_database cars request
         cars_schema cars_loaded).

Definition cars_aggregated : history :=
  snd (Agent.try_query_with_aggregation shop_world car_database cars request
         cars_schema cars_matched).

(** The same three for the only candidate of [empty_world]. *)
Definition empty_loaded : history :=
  snd (get_collection_schema empty_world car_database cars []).

Definition empty_matched : history :=
  snd (Agent.try_query_with_match empty_world car_database cars request
         cars_schema empty_loaded).

Definition empty_aggregated : history :=
  snd (Agent.try_query_with_aggregation empty_world car_database cars request
         cars_schema empty_matched).

(** The tool agent of the first [try] found nothing, and the completion
    ranks one candidate that names neither a database nor a collection. *)
Definition keyless_ranking (c : call) : res value :=
  match c with
  | LlmInvoke (PlanPrompt _ _) => inr (VStr "1. look into the cars collection")
  | AgentRun _ => inr (VStr "Found 0 documents")
  | ListDatabases => inr databases
  | ListCollections _ => inr collections_of_library
  | LlmInvoke (RankPrompt _ _ _) => inr (VStr "[{}]")
  | _ => offline
  end.

Definition keyless_world : env := world keyless_ranking texts.

(** The filter finds nothing. *)
Definition zero_matches_world : env := red_cars_world.

(** The aggregation tool is down. *)
Definition aggregate_down (c : call) : res value :=
  match c with
  | Aggregate _ _ _ => offline
  | _ => red_cars_answers c
  end.

Definition aggregate_down_world : env := world aggregate_down texts.

(** The text [[{"database": "library", "collection": "books"}]], with [dq]
    for its double quotes. *)
Definition dq : string := String (ascii_of_nat 34) EmptyString.

Definition ranking_text : string :=
  "[{" ++ dq ++ "database" ++ dq ++ ": " ++ dq ++ "library" ++ dq ++ ", "
  ++ dq ++ "collection" ++ dq ++ ": " ++ dq ++ "books" ++ dq ++ "}]".

(** Two databases; the collections of [shop] cannot be listed. *)
Definition shop_unlisted (c : call) : res value :=
  match c with
  | ListDatabases => inr databases
  | ListCollections db =>
      if is_the_str "shop" db then offline else inr collections_of_library
  | LlmInvoke (RankPrompt _ _ _) => inr (VStr ranking_text)
  | _ => offline
  end.

Definition shop_unlisted_world : env :=
  world shop_unlisted [(ranking_text, VList [library_candidate])].

(** The tool agent of gg.py answers a text search. *)
Definition tool_agent (c : call) : res value :=
  match c with
  | GetAggregationTool => inr VNone
  | NewToolAgent => inr VNone
  | AgentAinvoke _ => inr two_documents
  | _ => offline
  end.

Definition tool_agent_world : env := world tool_agent texts.

(** The completion answers the ranking prompt with prose. *)
Definition chatty_ranking (c : call) : res value :=
  match c with
  | LlmInvoke (RankPrompt _ _ _) => inr (VStr "Here are the three best pairs.")
  | _ => keyless_ranking c
  end.

Definition chatty_world : env := world chatty_ranking texts.

Definition full_inventory : inventory :=
  [(VStr "shop", VList [books]); (library, VList [books])].

(** The history once both databases had their collections listed. *)
Definition inventory_listed : history :=
  [Called (ListCollections library) (inr collections_of_library);
   Called (ListCollections (VStr "shop")) (inr collections_of_library);
   Called ListDatabases (inr databases)].

(** The end-to-end run of the specification.  The completion texts are
    [[{"database": "car_database", "collection": "cars"}]] and
    [{"color": "red"}]. *)
Definition car_ranking_text : string :=
  "[{" ++ dq ++ "database" ++ dq ++ ": " ++ dq ++ "car_database" ++ dq ++ ", "
  ++ dq ++ "collection" ++ dq ++ ": " ++ dq ++ "cars" ++ dq ++ "}]".

Definition color_filter_text : string :=
  "{" ++ dq ++ "color" ++ dq ++ ": " ++ dq ++ "red" ++ dq ++ "}".

Definition is_red_pattern (pipeline : value) : bool :=
  match pipeline with
  | VList [VDict [("$match",
                   VDict [("color", VDict [("$regex", VStr "red");
                                           ("$options", VStr "i")])])]] => true
  | _ => false
  end.

Definition end_to_end (c : call) : res value :=
  match c with
  | LlmInvoke (PlanPrompt _ _) => inr (VStr "1. look into the cars collection")
  | AgentRun _ => offline
  | ListDatabases => inr databases
  | ListCollections _ => inr collections_of_library
  | LlmInvoke (RankPrompt _ _ _) => inr (VStr car_ranking_text)
  | CollectionSchema _ _ => inr cars_description
  | LlmInvoke (MatchPrompt _ _ _) => inr (VStr color_filter_text)
  | Aggregate _ _ pipeline =>
      if is_red_pattern pipeline then inr two_documents else offline
  | _ => offline
  end.

Definition end_to_end_world : env :=
  world end_to_end
    [(car_ranking_text, VList [car_candidate]);
     (color_filter_text, VDict [("color", VStr "red")])].

End Sample.

(* ================================================================== *)
(** ** Further definitions: what the properties at the end are stated with *)

(** The strategies and the request handler of each script, by script, and
    the text each script's [try_query_with_match] looks for in a result. *)
Definition try_match_of (src : script)
  : env -> value -> value -> string -> value -> M value :=
  match src with
  | AgentPy => Agent.try_query_with_match
  | GgPy => GG.try_query_with_match
  end.



Definition sentinel (src : script) : string :=
  match src with
  | AgentPy => "Found 0"
  | GgPy => "F`ound 0"
  end.

(** The prompt of [try_query_with_match] in each script. *)
Definition match_prompt (src : script) (user_input : string) (schema : value)
  : call :=
  LlmInvoke (MatchPrompt src user_input schema).

(** Two items of which the second is the first rewritten: the same key, the
    value rewritten. *)
Definition rewritten (schema : value) (kv kv' : string * value) : Prop :=
  fst kv' = fst kv /\ rewrite_value schema (fst kv) (snd kv) = inr (snd kv').

(** The history at the moment [main] calls [agent.run]: the planning
    completion answered [plan] and its steps were printed. *)
Definition agent_ready (src : script) (user_input : string) (plan : value)
  (h : history) : history :=
  Printed Executing
  :: Printed (Steps plan)
  :: Called (LlmInvoke (PlanPrompt src user_input)) (inr plan)
  :: Printed Planning :: h.

(** Whether an answer of the list-collections tool gives the inventory loop
    a list of collection names. *)
Definition lists_collections (answer : res value) : bool :=
  match answer with
  | inr colls => match names_of colls "collections" with
                 | inr _ => true
                 | inl _ => false
                 end
  | inl _ => false
  end.

(** Keys that are pairwise different. *)
Fixpoint distinct (ks : list string) : bool :=
  match ks with
  | [] => true
  | k :: ks' => negb (existsb (String.eqb k) ks') && distinct ks'
  end.

(** A value as Python holds it: in every dict, at any depth, the keys are
    pairwise different. *)
Fixpoint well_formed (v : value) : bool :=
  match v with
  | VList l => forallb well_formed l
  | VDict d => distinct (keys d) && forallb (fun kv => well_formed (snd kv)) d
  | _ => true
  end.


(** [{"database": db, "collection": coll}] *)
Definition candidate_of (target : value * value) : value :=
  VDict [("database", fst target); ("collection", snd target)].

(** A field description whose [bsonType] is ["string"], and the name of a
    field description. *)
Definition is_string_field (f : value) : bool :=
  match f with
  | VDict d => match lookup "bsonType" d with
               | Some b => is_the_str "string" b
               | None => false
               end
  | _ => false
  end.

Definition has_name (f : value) : bool :=
  match f with
  | VDict d => match lookup "name" d with Some _ => true | None => false end
  | _ => false
  end.

Definition field_name (f : value) : value :=
  match f with
  | VDict d => match lookup "name" d with Some n => n | None => VNone end
  | _ => VNone
  end.

(** The history a run of schema failures leaves: for each candidate, oldest
    first, the schema call answered by the error [e] and the line printed
    for it. *)
Fixpoint schema_failures (e : exn) (targets : list (value * value))
  (h : history) : history :=
  match targets with
  | [] => h
  | (db, coll) :: rest =>
      schema_failures e rest
        (Printed (SchemaLoadFailed db coll e)
         :: Called (CollectionSchema db coll) (inl e) :: h)
  end.

(** How many schema calls a history holds. *)
Definition schema_calls (h : history) : nat :=
  length (filter (fun ev => match ev with
                            | Called (CollectionSchema _ _) _ => true
                            | _ => false
                            end) h).

(** Further data of the examples. *)
Module Cases.

Definition nested_items : list (string * value) :=
  [("color", VStr "red");
   ("tags", VList [VStr "red"; VDict [("color", VStr "red")]]);
   ("owner", VDict [("color", VStr "blue"); ("year", VInt 1999)])].

Definition nested_filter : value := VDict nested_items.

(** Its rewrite under [Sample.cars_schema]: the list under ["tags"] is left
    alone, with the string and the dict it holds. *)
Definition nested_rewritten : list (string * value) :=
  [("color", regex_condition "red");
   ("tags", VList [VStr "red"; VDict [("color", VStr "red")]]);
   ("owner", VDict [("color", regex_condition "blue"); ("year", VInt 1999)])].

(** A description without the derived list: no field is a string field. *)
Definition bare_schema : value :=
  VDict [("fields", VList [Sample.field "year" "int"])].


(** A description with a field of an unusual shape among the usual ones:
    the third field has no ["bsonType"], the fourth is a string field with
    further keys. *)
Definition mixed_fields : list value :=
  [Sample.field "make" "string";
   Sample.field "year" "int";
   VDict [("name", VStr "notes")];
   VDict [("description", VStr "paint"); ("bsonType", VStr "string");
          ("name", VStr "color")]].

Definition mixed_description : list (string * value) :=
  [("fields", VList mixed_fields); ("count", VInt 3)].

Definition mixed_world : env :=
  Sample.world (fun _ => inr (VDict mixed_description)) Sample.texts.

(** A description in which a string field has no name. *)
Definition nameless_fields : list value :=
  [Sample.field "make" "string"; VDict [("bsonType", VStr "string")]].

Definition nameless_world : env :=
  Sample.world (fun _ => inr (VDict [("fields", VList nameless_fields)]))
    Sample.texts.

(** Every collaborator is down. *)
Definition dark_world : env := Sample.world (fun _ => Sample.offline) Sample.texts.

(** Four candidates, and the schema tool down throughout. *)
Definition four_targets : list (value * value) :=
  [(VStr "shop", VStr "orders"); (Sample.library, Sample.books);
   (Sample.car_database, Sample.cars); (VStr "shop", VStr "clients")].

(** The agent answers a text that holds ["Found 0"] in its middle. *)
Definition sentinel_inside (c : call) : res value :=
  match c with
  | LlmInvoke (PlanPrompt _ _) => inr (VStr "1. count the cars")
  | AgentRun _ => inr (VStr "Lost and Found 07: three entries")
  | _ => Sample.offline
  end.

Definition sentinel_world : env := Sample.world sentinel_inside Sample.texts.

(** The agent answers an empty list. *)
Definition empty_agent (c : call) : res value :=
  match c with
  | LlmInvoke (PlanPrompt _ _) => inr (VStr "1. count the cars")
  | AgentRun _ => inr (VList [])
  | _ => Sample.offline
  end.

Definition empty_agent_world : env := Sample.world empty_agent Sample.texts.

(** Three databases; the collections of the second cannot be listed and
    the answer for the third has no ["collections"]. *)
Definition partial_listing (db : value) : res value :=
  if is_the_str "shop" db then Sample.offline
  else if is_the_str "archive" db then inr (VDict [])
  else inr Sample.collections_of_library.

Definition partial_world : env :=
  Sample.world
    (fun c => match c with
              | ListCollections db => partial_listing db
              | _ => Sample.offline
              end)
    Sample.texts.
End Cases.

(* ================================================================== *)
(** ** Induction on values *)

Lemma value_ind (P : value -> Prop)
  (HNone : P VNone)
  (HBool : forall b, P (VBool b))
  (HInt : forall z, P (VInt z))
  (HStr : forall s, P (VStr s))
  (HList : forall l, Forall P l -> P (VList l))
  (HDict : forall d, Forall (fun kv => P (snd kv)) d -> P (VDict d)) :
  forall v, P v.
Proof.
  fix IH 1.
  intros [ | b | z | s | l | d ].
  - exact HNone.
  - apply HBool.
  - apply HInt.
  - apply HStr.
  - apply HList. induction l as [ | x l IHl ]; constructor.
    + apply IH.
    + exact IHl.
  - apply HDict. induction d as [ | [k x] d IHd ]; constructor.
    + apply IH.
    + exact IHd.
Qed.

(* ================================================================== *)
(** ** make_case_insensitive *)

Lemma make_case_insensitive_dict (d : list (string * value)) (schema : value) :
  make_case_insensitive (VDict d) schema
  = (result <-- rewrite_items schema d [] ;; inr (VDict result))%res.
Proof.
  cbn [make_case_insensitive]. f_equal.
  generalize (@nil (string * value)).
  induction d as [ | [k v] d IHd ]; intros acc.
  - reflexivity.
  - cbn [rewrite_items]. destruct v; try apply IHd.
    + destruct (in_string_fields schema k) as [e | [ | ]]; cbn [rbind];
        [reflexivity | apply IHd | apply IHd].
    + destruct (make_case_insensitive (VDict d0) schema); cbn [rbind];
        [reflexivity | apply IHd].
Qed.

Lemma rewrite_items_cons schema k v l acc :
  rewrite_items schema ((k, v) :: l) acc
  = (r <-- rewrite_value schema k v ;;
     rewrite_items schema l (dict_set acc k r))%res.
Proof.
  destruct v; try reflexivity.
  cbn [rewrite_items rewrite_value].
  destruct (in_string_fields schema k) as [e | [ | ]]; reflexivity.
Qed.

Lemma make_case_insensitive_dict_shape d schema r :
  make_case_insensitive (VDict d) schema = inr r -> exists d', r = VDict d'.
Proof.
  rewrite make_case_insensitive_dict.
  destruct (rewrite_items schema d []) as [e | out]; cbn [rbind]; intros H.
  - discriminate.
  - exists out. congruence.
Qed.

(** *** Facts on [dict_set] *)

Lemma dict_set_fresh d k v :
  ~ In k (keys d) -> dict_set d k v = d ++ [(k, v)].
Proof.
  induction d as [ | [k' v'] d IHd ]; intros Hk; cbn.
  - reflexivity.
  - destruct (String.eqb_spec k k') as [-> | Hne].
    + exfalso. apply Hk. now left.
    + f_equal. apply IHd. intros Hin. apply Hk. now right.
Qed.

Lemma dict_set_keys_in d k v k0 :
  In k0 (keys (dict_set d k v)) <-> k0 = k \/ In k0 (keys d).
Proof.
  induction d as [ | [k' v'] d IHd ]; cbn.
  - intuition.
  - destruct (String.eqb_spec k k') as [-> | Hne]; cbn.
    + intuition.
    + rewrite IHd. intuition.
Qed.

Lemma dict_set_NoDup d k v :
  NoDup (keys d) -> NoDup (keys (dict_set d k v)).
Proof.
  induction d as [ | [k' v'] d IHd ]; cbn; intros Hd.
  - constructor; [intros [] | constructor].
  - inversion Hd as [ | ? ? Hnot Hrest ]; subst.
    destruct (String.eqb_spec k k') as [-> | Hne]; cbn.
    + now constructor.
    + constructor.
      * rewrite dict_set_keys_in. intros [Heq | Hin]; [congruence | tauto].
      * now apply IHd.
Qed.

Lemma dict_set_Forall (Q : string * value -> Prop) d k v :
  Forall Q d -> Q (k, v) -> Forall Q (dict_set d k v).
Proof.
  induction d as [ | [k' v'] d IHd ]; cbn; intros Hd Hq.
  - now constructor.
  - inversion Hd; subst.
    destruct (String.eqb_spec k k') as [-> | Hne]; constructor; auto.
Qed.

Lemma store_all_NoDup l : forall acc,
  NoDup (keys (acc ++ l)) -> store_all l acc = acc ++ l.
Proof.
  induction l as [ | [k v] l IHl ]; intros acc Hnd; cbn.
  - now rewrite app_nil_r.
  - unfold store_all in IHl. cbn [fst snd].
    assert (Hfresh : ~ In k (keys acc)).
    { unfold keys in *. rewrite map_app in Hnd. cbn in Hnd.
      apply NoDup_remove_2 in Hnd. intros Hin. apply Hnd.
      apply in_or_app. now left. }
    rewrite (dict_set_fresh _ _ _ Hfresh).
    rewrite IHl; rewrite <- app_assoc; [reflexivity | exact Hnd].
Qed.

(** *** The second pass, for a schema that lists neither key of a pattern
    condition among its string fields *)

Section SecondPass.

Variable schema : value.
Hypothesis no_regex : in_string_fields schema "$regex" = inr false.
Hypothesis no_options : in_string_fields schema "$options" = inr false.

Lemma in_string_fields_total k : exists b, in_string_fields schema k = inr b.
Proof.
  revert no_regex. unfold in_string_fields.
  destruct (dict_get schema "string_fields" (VList [])) as [e | sf];
    cbn [rbind]; [discriminate | ].
  destruct sf; cbn; try discriminate; eauto.
Qed.

Lemma regex_condition_settled s :
  make_case_insensitive (regex_condition s) schema = inr (regex_condition s).
Proof.
  unfold regex_condition. rewrite make_case_insensitive_dict.
  cbn [rewrite_items]. rewrite no_regex. cbn [rbind dict_set].
  rewrite no_options. reflexivity.
Qed.

Lemma rewrite_value_settles k v r :
  (forall r', make_case_insensitive v schema = inr r' ->
              make_case_insensitive r' schema = inr r') ->
  rewrite_value schema k v = inr r -> settled schema (k, r).
Proof.
  unfold settled. cbn [fst snd]. intros IH.
  destruct v; cbn [rewrite_value]; intros H;
    try (injection H as <-; reflexivity).
  - destruct (in_string_fields schema k) as [e | [ | ]] eqn:Hk;
      cbn [rbind] in H; [discriminate | | ]; injection H as <-.
    + apply regex_condition_settled.
    + cbn [rewrite_value]. now rewrite Hk.
  - destruct (make_case_insensitive_dict_shape _ _ _ H) as [d' ->].
    cbn [rewrite_value]. now apply IH.
Qed.

Lemma rewrite_items_settles l : forall acc out,
  Forall (fun kv => forall r', make_case_insensitive (snd kv) schema = inr r' ->
                               make_case_insensitive r' schema = inr r') l ->
  Forall (settled schema) acc -> NoDup (keys acc) ->
  rewrite_items schema l acc = inr out ->
  Forall (settled schema) out /\ NoDup (keys out).
Proof.
  induction l as [ | [k v] l IHl ]; intros acc out Hl Hacc Hnd H.
  - cbn in H. injection H as <-. now split.
  - rewrite rewrite_items_cons in H. inversion Hl as [ | ? ? Hv Hl' ]; subst.
    destruct (rewrite_value schema k v) as [e | r] eqn:Hr; cbn [rbind] in H;
      [discriminate | ].
    apply (IHl (dict_set acc k r) out Hl'); [ | | exact H].
    + apply dict_set_Forall; [exact Hacc | ].
      exact (rewrite_value_settles k v r Hv Hr).
    + now apply dict_set_NoDup.
Qed.

Lemma rewrite_items_settled l : forall acc,
  Forall (settled schema) l -> rewrite_items schema l acc = inr (store_all l acc).
Proof.
  induction l as [ | [k v] l IHl ]; intros acc Hl.
  - reflexivity.
  - inversion Hl as [ | ? ? Hv Hl' ]; subst. unfold settled in Hv.
    cbn [fst snd] in Hv. rewrite rewrite_items_cons, Hv. cbn [rbind].
    now rewrite IHl.
Qed.

Lemma rewrite_items_total l : forall acc,
  Forall (fun kv => exists r, make_case_insensitive (snd kv) schema = inr r) l ->
  exists out, rewrite_items schema l acc = inr out.
Proof.
  induction l as [ | [k v] l IHl ]; intros acc Hl.
  - now exists acc.
  - inversion Hl as [ | ? ? Hv Hl' ]; subst. cbn [snd] in Hv.
    rewrite rewrite_items_cons.
    assert (Hr : exists r, rewrite_value schema k v = inr r).
    { destruct v; cbn [rewrite_value]; eauto.
      destruct (in_string_fields_total k) as [b ->]. cbn [rbind]. eauto. }
    destruct Hr as [r ->]. cbn [rbind]. now apply IHl.
Qed.

Lemma make_case_insensitive_total f :
  exists f', make_case_insensitive f schema = inr f'.
Proof.
  induction f using value_ind; try (eexists; reflexivity).
  rewrite make_case_insensitive_dict.
  destruct (rewrite_items_total d [] H) as [out ->]. cbn [rbind]. eauto.
Qed.

Lemma make_case_insensitive_second_pass f : forall f',
  make_case_insensitive f schema = inr f' ->
  make_case_insensitive f' schema = inr f'.
Proof.
  induction f using value_ind; intros f' Hf;
    try (injection Hf as <-; reflexivity).
  rewrite make_case_insensitive_dict in Hf.
  destruct (rewrite_items schema d []) as [e | out] eqn:Hout;
    cbn [rbind] in Hf; [discriminate | ]. injection Hf as <-.
  destruct (rewrite_items_settles d [] out H (Forall_nil _) (NoDup_nil _) Hout)
    as [Hs Hnd].
  rewrite make_case_insensitive_dict, (rewrite_items_settled out [] Hs).
  cbn [rbind]. now rewrite (store_all_NoDup out []).
Qed.

End SecondPass.

Example make_case_insensitive_red_cars :
  make_case_insensitive Sample.red_cars Sample.cars_schema
  = inr Sample.red_cars_rewritten.
Proof. reflexivity. Qed.

(** C4, as amended: for every filter [f] and every schema [s] whose
    string-field set contains neither ["$regex"] nor ["$options"], the
    case-insensitive rewrite of [f] under [s] returns, and rewriting its
    result again under [s] gives that result back: the second pass is a
    no-op and pattern conditions are not wrapped again. *)
Theorem make_case_insensitive_idempotent (f schema : value) :
  in_string_fields schema "$regex" = inr false ->
  in_string_fields schema "$options" = inr false ->
  exists f', make_case_insensitive f schema = inr f' /\
             make_case_insensitive f' schema = inr f'.
Proof.
  intros Hre Hop.
  destruct (make_case_insensitive_total schema Hre f) as [f' Hf].
  exists f'. split; [exact Hf | ].
  exact (make_case_insensitive_second_pass schema Hre Hop f f' Hf).
Qed.

Lemma make_case_insensitive_idempotent_red_cars :
  exists f', make_case_insensitive Sample.red_cars Sample.cars_schema = inr f' /\
             make_case_insensitive f' Sample.cars_schema = inr f'.
Proof.
  apply (make_case_insensitive_idempotent Sample.red_cars Sample.cars_schema);
    reflexivity.
Defined.

(** C4 as stated fails: with a schema whose string fields include
    ["$regex"], the second pass wraps the pattern condition the first pass
    produced. *)
Lemma make_case_insensitive_rewraps :
  make_case_insensitive (VDict [("name", VStr "bob")]) Sample.regex_schema
  = inr (VDict [("name", regex_condition "bob")])
  /\ make_case_insensitive (VDict [("name", regex_condition "bob")])
       Sample.regex_schema
     = inr (VDict [("name", VDict [("$regex", regex_condition "bob");
                                   ("$options", VStr "i")])])
  /\ VDict [("name", VDict [("$regex", regex_condition "bob");
                            ("$options", VStr "i")])]
     <> VDict [("name", regex_condition "bob")].
Proof.
  repeat split; try reflexivity. discriminate.
Qed.

(* ================================================================== *)
(** ** get_collection_schema *)

Example get_collection_schema_cars :
  get_collection_schema
    (Sample.world (fun _ => inr Sample.cars_description) [])
    Sample.car_database Sample.cars []
  = (inr Sample.cars_schema,
     [Called (CollectionSchema Sample.car_database Sample.cars)
        (inr Sample.cars_description)]).
Proof. reflexivity. Qed.

(** C9, as amended: [get_collection_schema] raises when the schema
    collaborator raises, with the collaborator's error, and when the
    collaborator answers something that is not a dict.  When the
    collaborator answers a description that has no ["fields"] entry or an
    empty one, it does not fail: it returns the description with an empty
    list of string fields. *)
Theorem get_collection_schema_error_or_no_fields (E : env) (db coll : value)
  (h : history) :
  (forall e, oracle E h (CollectionSchema db coll) = inl e ->
     get_collection_schema E db coll h
     = (inl e, Called (CollectionSchema db coll) (inl e) :: h))
  /\
  (forall v, oracle E h (CollectionSchema db coll) = inr v ->
     is_dict v = false ->
     get_collection_schema E db coll h
     = (inl AttributeError, Called (CollectionSchema db coll) (inr v) :: h))
  /\
  (forall d, oracle E h (CollectionSchema db coll) = inr (VDict d) ->
     lookup "fields" d = None \/ lookup "fields" d = Some (VList []) ->
     get_collection_schema E db coll h
     = (inr (VDict (dict_set d "string_fields" (VList []))),
        Called (CollectionSchema db coll) (inr (VDict d)) :: h)).
Proof.
  repeat split.
  - intros e He. unfold get_collection_schema, bind, invoke. now rewrite He.
  - intros v Hv Hnot. unfold get_collection_schema, bind, invoke, lift.
    rewrite Hv. destruct v; try reflexivity. discriminate.
  - intros d Hd Hfields.
    unfold get_collection_schema, bind, invoke, lift. rewrite Hd.
    cbn [dict_get]. now destruct Hfields as [-> | ->].
Qed.

Lemma get_collection_schema_error_or_no_fields_sample :
  get_collection_schema (Sample.world Sample.schema_down [])
    Sample.car_database Sample.cars []
  = (inl (External "connection refused"),
     [Called (CollectionSchema Sample.car_database Sample.cars) Sample.offline])
  /\
  get_collection_schema (Sample.world Sample.no_fields [])
    Sample.car_database Sample.cars []
  = (inr (VDict [("fields", VList []); ("string_fields", VList [])]),
     [Called (CollectionSchema Sample.car_database Sample.cars)
        (inr (VDict [("fields", VList [])]))]).
Proof.
  split.
  - apply (proj1 (get_collection_schema_error_or_no_fields
                    (Sample.world Sample.schema_down [])
                    Sample.car_database Sample.cars [])).
    reflexivity.
  - apply (proj2 (proj2 (get_collection_schema_error_or_no_fields
                           (Sample.world Sample.no_fields [])
                           Sample.car_database Sample.cars []))
             [("fields", VList [])]).
    + reflexivity.
    + right. reflexivity.
Defined.

(** C9 as stated fails: a description without field descriptions is not
    [SchemaUnavailable]; a schema is returned. *)
Lemma get_collection_schema_no_fields_returns :
  get_collection_schema (Sample.world Sample.no_fields [])
    Sample.car_database Sample.cars []
  = (inr (VDict [("fields", VList []); ("string_fields", VList [])]),
     [Called (CollectionSchema Sample.car_database Sample.cars)
        (inr (VDict [("fields", VList [])]))]).
Proof. reflexivity. Qed.

(* ================================================================== *)
(** ** The candidate loop of main *)

Lemma get_collection_schema_history (E : env) (db coll : value) (h : history) :
  snd (get_collection_schema E db coll h)
  = Called (CollectionSchema db coll) (oracle E h (CollectionSchema db coll)) :: h.
Proof.
  unfold get_collection_schema, bind, invoke, lift.
  now destruct (oracle E h (CollectionSchema db coll)).
Qed.

Section CandidateLoop.

Variable E : env.
Variables try_match try_aggregation : value -> value -> string -> value -> M value.
Variable user_input : string.

Let loop := candidate_loop E try_match try_aggregation user_input.
Let body := candidate_body E try_match try_aggregation user_input.

(** One turn of the loop is its body, then the rest of the loop. *)
Lemma candidate_loop_cons (c : value) (rest : list value) (h : history) :
  loop (c :: rest) h
  = match body c h with
    | (inl e, h') => (inl e, h')
    | (inr (Some r), h') => (inr r, h')
    | (inr None, h') => loop rest h'
    end.
Proof.
  subst loop body. cbn [candidate_loop].
  unfold candidate_body, bind, lift, attempt, print, ret.
  destruct (getitem c "database") as [e | db]; [reflexivity | ].
  destruct (getitem c "collection") as [e | coll]; [reflexivity | ].
  destruct (get_collection_schema E db coll h) as [[e | schema] h1];
    [reflexivity | ].
  destruct (try_match db coll user_input schema h1) as [[e | m] h2];
    [reflexivity | ].
  destruct (truthy m); [reflexivity | ].
  destruct (try_aggregation db coll user_input schema h2) as [[e | a] h3];
    [reflexivity | ].
  destruct (truthy a); reflexivity.
Qed.

Lemma candidate_body_break (c : value) (h h' : history) (r : resolution) :
  body c h = (inr (Some r), h') -> r <> AllExhausted.
Proof.
  subst body. unfold candidate_body, bind, lift, attempt, print, ret.
  destruct (getitem c "database") as [e | db]; [discriminate | ].
  destruct (getitem c "collection") as [e | coll]; [discriminate | ].
  destruct (get_collection_schema E db coll h) as [[e | schema] h1];
    [discriminate | ].
  destruct (try_match db coll user_input schema h1) as [[e | m] h2];
    [discriminate | ].
  destruct (truthy m); [intros [= <- _]; discriminate | ].
  destruct (try_aggregation db coll user_input schema h2) as [[e | a] h3];
    [discriminate | ].
  destruct (truthy a); [intros [= <- _]; discriminate | discriminate].
Qed.

(** Candidates that were all tried in vain leave the loop where it would be
    without them, but for the history. *)
Lemma candidate_loop_app (tried rest : list value) : forall h0 h,
  loop tried h0 = (inr AllExhausted, Printed AllRetriesFailed :: h) ->
  loop (tried ++ rest) h0 = loop rest h.
Proof.
  induction tried as [ | c tried IH ]; intros h0 h Htried.
  - subst loop. cbn in Htried. now injection Htried as ->.
  - rewrite <- app_comm_cons. rewrite candidate_loop_cons in *.
    destruct (body c h0) as [[e | [r | ]] h'] eqn:Hbody.
    + discriminate.
    + injection Htried as -> _. now apply candidate_body_break in Hbody.
    + now apply IH.
Qed.

Lemma candidate_body_schema_ok (c db coll schema : value) (h h1 : history) :
  getitem c "database" = inr db ->
  getitem c "collection" = inr coll ->
  get_collection_schema E db coll h = (inr schema, h1) ->
  body c h
  = match try_match db coll user_input schema h1 with
    | (inl e, h2) => (inl e, h2)
    | (inr m, h2) =>
        if truthy m
        then (inr (Some (ByMatch m)), Printed (SmartMatchResult db coll m) :: h2)
        else
          match try_aggregation db coll user_input schema h2 with
          | (inl e, h3) => (inl e, h3)
          | (inr a, h3) =>
              if truthy a
              then (inr (Some (ByAggregation a)),
                    Printed (AggregationResult db coll a) :: h3)
              else (inr None, h3)
          end
    end.
Proof.
  intros Hdb Hcoll Hschema. subst body.
  unfold candidate_body, bind, lift, attempt, print, ret.
  rewrite Hdb, Hcoll, Hschema.
  destruct (try_match db coll user_input schema h1) as [[e | m] h2];
    [reflexivity | ].
  destruct (truthy m); [reflexivity | ].
  destruct (try_aggregation db coll user_input schema h2) as [[e | a] h3];
    [reflexivity | ].
  destruct (truthy a); reflexivity.
Qed.

End CandidateLoop.

(** C2: when the loop of [main] reaches a candidate (the candidates [tried]
    before it all fell through) and [get_collection_schema] raises for it,
    the loop prints the schema failure and goes on with the next candidate.
    Between reaching the candidate and turning to the next one the history
    grows by the schema call and that line only, whatever the two strategy
    functions are: neither is invoked for this candidate. *)
Theorem candidate_loop_schema_unavailable (E : env)
  (try_match try_aggregation : value -> value -> string -> value -> M value)
  (user_input : string) (tried : list value) (c : value) (rest : list value)
  (h0 h h1 : history) (db coll : value) (e : exn) :
  candidate_loop E try_match try_aggregation user_input tried h0
  = (inr AllExhausted, Printed AllRetriesFailed :: h) ->
  getitem c "database" = inr db ->
  getitem c "collection" = inr coll ->
  get_collection_schema E db coll h = (inl e, h1) ->
  candidate_loop E try_match try_aggregation user_input (tried ++ c :: rest) h0
  = candidate_loop E try_match try_aggregation user_input rest
      (Printed (SchemaLoadFailed db coll e)
       :: Called (CollectionSchema db coll)
            (oracle E h (CollectionSchema db coll))
       :: h).
Proof.
  intros Htried Hdb Hcoll Hschema.
  rewrite (candidate_loop_app _ _ _ _ _ _ _ _ Htried), candidate_loop_cons.
  pose proof (get_collection_schema_history E db coll h) as Hh.
  rewrite Hschema in Hh. cbn [snd] in Hh. subst h1.
  unfold candidate_body, bind, lift, attempt, print, ret.
  now rewrite Hdb, Hcoll, Hschema.
Qed.

(** C10: the loop of [main] tests the value a strategy returned for
    truthiness.  When it reaches a candidate whose schema loads and
    [try_query_with_match] returns a falsy value [m] (None, but as well an
    empty list, an empty string, 0 or False), nothing is printed for the
    match and [try_query_with_aggregation] runs next; when that returns a
    falsy value too, the loop goes on with the next candidate.  What the
    loop does is the same for every falsy [m]. *)
Theorem candidate_loop_falsy_payload (E : env)
  (try_match try_aggregation : value -> value -> string -> value -> M value)
  (user_input : string) (tried : list value) (c : value) (rest : list value)
  (h0 h h1 h2 : history) (db coll schema m : value) :
  candidate_loop E try_match try_aggregation user_input tried h0
  = (inr AllExhausted, Printed AllRetriesFailed :: h) ->
  getitem c "database" = inr db ->
  getitem c "collection" = inr coll ->
  get_collection_schema E db coll h = (inr schema, h1) ->
  try_match db coll user_input schema h1 = (inr m, h2) ->
  truthy m = false ->
  candidate_loop E try_match try_aggregation user_input (tried ++ c :: rest) h0
  = match try_aggregation db coll user_input schema h2 with
    | (inl e, h3) => (inl e, h3)
    | (inr a, h3) =>
        if truthy a
        then (inr (ByAggregation a), Printed (AggregationResult db coll a) :: h3)
        else candidate_loop E try_match try_aggregation user_input rest h3
    end.
Proof.
  intros Htried Hdb Hcoll Hschema Hm Hfalsy.
  rewrite (candidate_loop_app _ _ _ _ _ _ _ _ Htried), candidate_loop_cons.
  rewrite (candidate_body_schema_ok _ _ _ _ _ _ _ _ _ _ Hdb Hcoll Hschema).
  rewrite Hm, Hfalsy.
  destruct (try_aggregation db coll user_input schema h2) as [[e | a] h3];
    [reflexivity | ].
  destruct (truthy a); reflexivity.
Qed.

(** C1: when the loop of [main] reaches a candidate whose schema loads,
    [try_query_with_match] returns a value that counts as no result (a falsy
    one: None on Empty or Failure) and [try_query_with_aggregation], run on
    the history the match left, returns a result [X] (a truthy value), the
    loop ends with [X], printed as the aggregation result of that
    candidate. *)
Theorem candidate_loop_match_empty_aggregate_success (E : env)
  (try_match try_aggregation : value -> value -> string -> value -> M value)
  (user_input : string) (tried : list value) (c : value) (rest : list value)
  (h0 h h1 h2 h3 : history) (db coll schema m X : value) :
  candidate_loop E try_match try_aggregation user_input tried h0
  = (inr AllExhausted, Printed AllRetriesFailed :: h) ->
  getitem c "database" = inr db ->
  getitem c "collection" = inr coll ->
  get_collection_schema E db coll h = (inr schema, h1) ->
  try_match db coll user_input schema h1 = (inr m, h2) ->
  truthy m = false ->
  try_aggregation db coll user_input schema h2 = (inr X, h3) ->
  truthy X = true ->
  candidate_loop E try_match try_aggregation user_input (tried ++ c :: rest) h0
  = (inr (ByAggregation X), Printed (AggregationResult db coll X) :: h3).
Proof.
  intros Htried Hdb Hcoll Hschema Hm Hfalsy HX Htruthy.
  rewrite (candidate_loop_app _ _ _ _ _ _ _ _ Htried), candidate_loop_cons.
  rewrite (candidate_body_schema_ok _ _ _ _ _ _ _ _ _ _ Hdb Hcoll Hschema).
  now rewrite Hm, Hfalsy, HX, Htruthy.
Qed.

Lemma candidate_loop_schema_unavailable_sample :
  candidate_loop Sample.shop_world
    (Agent.try_query_with_match Sample.shop_world)
    (Agent.try_query_with_aggregation Sample.shop_world)
    Sample.request ([] ++ Sample.shop_candidate :: [Sample.car_candidate]) []
  = candidate_loop Sample.shop_world
      (Agent.try_query_with_match Sample.shop_world)
      (Agent.try_query_with_aggregation Sample.shop_world)
      Sample.request [Sample.car_candidate] Sample.after_shop.
Proof.
  apply (candidate_loop_schema_unavailable Sample.shop_world
           (Agent.try_query_with_match Sample.shop_world)
           (Agent.try_query_with_aggregation Sample.shop_world)
           Sample.request [] Sample.shop_candidate [Sample.car_candidate]
           [] []
           [Called (CollectionSchema (VStr "shop") (VStr "orders")) Sample.offline]
           (VStr "shop") (VStr "orders") (External "connection refused"));
    reflexivity.
Defined.

Lemma candidate_loop_falsy_payload_sample :
  Agent.try_query_with_match Sample.empty_world Sample.car_database Sample.cars
    Sample.request Sample.cars_schema Sample.empty_loaded
  = (inr (VList []), Sample.empty_matched)
  /\ Agent.try_query_with_aggregation Sample.empty_world Sample.car_database
       Sample.cars Sample.request Sample.cars_schema Sample.empty_matched
     = (inr (VStr ""), Sample.empty_aggregated)
  /\ candidate_loop Sample.empty_world
       (Agent.try_query_with_match Sample.empty_world)
       (Agent.try_query_with_aggregation Sample.empty_world)
       Sample.request ([] ++ Sample.car_candidate :: []) []
     = (inr AllExhausted, Printed AllRetriesFailed :: Sample.empty_aggregated).
Proof.
  split; [reflexivity | split; [reflexivity | ] ].
  apply (candidate_loop_falsy_payload Sample.empty_world
           (Agent.try_query_with_match Sample.empty_world)
           (Agent.try_query_with_aggregation Sample.empty_world)
           Sample.request [] Sample.car_candidate []
           [] [] Sample.empty_loaded Sample.empty_matched
           Sample.car_database Sample.cars Sample.cars_schema (VList []));
    reflexivity.
Defined.

Lemma candidate_loop_match_empty_aggregate_success_sample :
  candidate_loop Sample.shop_world
    (Agent.try_query_with_match Sample.shop_world)
    (Agent.try_query_with_aggregation Sample.shop_world)
    Sample.request
    ([Sample.shop_candidate] ++ Sample.car_candidate :: [Sample.shop_candidate])
    []
  = (inr (ByAggregation Sample.two_documents),
     Printed (AggregationResult Sample.car_database Sample.cars
                Sample.two_documents)
     :: Sample.cars_aggregated).
Proof.
  apply (candidate_loop_match_empty_aggregate_success Sample.shop_world
           (Agent.try_query_with_match Sample.shop_world)
           (Agent.try_query_with_aggregation Sample.shop_world)
           Sample.request [Sample.shop_candidate] Sample.car_candidate
           [Sample.shop_candidate]
           [] Sample.after_shop Sample.cars_loaded Sample.cars_matched
           Sample.cars_aggregated
           Sample.car_database Sample.cars Sample.cars_schema VNone
           Sample.two_documents);
    reflexivity.
Defined.

(** The history of that run, oldest event last: the match is tried and
    fails before the aggregation is tried. *)
Example cars_aggregated_history :
  Sample.cars_aggregated
  = [Called (Aggregate Sample.car_database Sample.cars (VList []))
       (inr Sample.two_documents);
     Called (LlmInvoke (AggPrompt Sample.request Sample.cars_schema))
       (inr (VStr " [] "));
     Printed (TryingAggregation Sample.car_database Sample.cars);
     Printed (MatchFailed Sample.car_database Sample.cars
                (ValueError "No data found"));
     Called (Aggregate Sample.car_database Sample.cars
               (VList [VDict [("$match", VDict [])]]))
       (inr (VStr "Found 0 documents"));
     Called (LlmInvoke (MatchPrompt AgentPy Sample.request Sample.cars_schema))
       (inr (VStr "{}"));
     Printed (TryingMatch Sample.car_database Sample.cars);
     Called (CollectionSchema Sample.car_database Sample.cars)
       (inr Sample.cars_description)]
    ++ Sample.after_shop.
Proof. reflexivity. Qed.

(* ================================================================== *)
(** ** try_query_with_match *)

Lemma agent_match_attempt_fails (E : env) (db coll : value) (user_input : string)
  (schema : value) (h h' : history) (e : exn) :
  match_attempt_fails E db coll user_input schema h e h' ->
  Agent.try_query_with_match E db coll user_input schema h
  = (inr VNone, Printed (MatchFailed db coll e) :: h').
Proof.
  intros Hfails.
  unfold Agent.try_query_with_match, bind, attempt, print, invoke, lift, ret, raise.
  destruct Hfails as [ e h1 p Hllm
                     | content e h1 p Hllm Hparse
                     | content raw e h1 p Hllm Hparse Hrewrite
                     | content raw final e h1 p h2 q Hllm Hparse Hrewrite Hagg
                     | content raw final s h1 p h2 q Hllm Hparse Hrewrite Hagg
                         Hzero ];
    try subst h2 q; subst h1 p; rewrite Hllm; try rewrite Hparse; try rewrite Hrewrite; try rewrite Hagg;
    try reflexivity.
  cbn [str_containing]. now rewrite Hzero.
Qed.

(** C5, as amended: in agent.py, an aggregation result that is a text
    containing ["Found 0"] is one of the ways the [try] block of
    [try_query_with_match] fails ([zero_matches] in [match_attempt_fails],
    next to a completion, parse, rewrite or transport error).  For each of
    them alike the function prints the line "Smart $match failed" with the
    exception caught (ValueError "No data found" for zero matches) and
    returns None; the loop of [main] then runs [try_query_with_aggregation]
    for the same candidate. *)
Theorem agent_match_zero_matches_is_failure (E : env) (db coll : value)
  (user_input : string) (schema : value) (h h' : history) (e : exn) :
  match_attempt_fails E db coll user_input schema h e h' ->
  Agent.try_query_with_match E db coll user_input schema h
  = (inr VNone, Printed (MatchFailed db coll e) :: h')
  /\
  forall (c : value) (rest : list value) (h0 : history),
    getitem c "database" = inr db ->
    getitem c "collection" = inr coll ->
    get_collection_schema E db coll h0 = (inr schema, h) ->
    candidate_loop E (Agent.try_query_with_match E)
      (Agent.try_query_with_aggregation E) user_input (c :: rest) h0
    = match Agent.try_query_with_aggregation E db coll user_input schema
              (Printed (MatchFailed db coll e) :: h') with
      | (inl e', h3) => (inl e', h3)
      | (inr a, h3) =>
          if truthy a
          then (inr (ByAggregation a),
                Printed (AggregationResult db coll a) :: h3)
          else candidate_loop E (Agent.try_query_with_match E)
                 (Agent.try_query_with_aggregation E) user_input rest h3
      end.
Proof.
  intros Hfails. pose proof (agent_match_attempt_fails _ _ _ _ _ _ _ _ Hfails) as Hm.
  split; [exact Hm | ].
  intros c rest h0 Hdb Hcoll Hschema.
  rewrite candidate_loop_cons.
  rewrite (candidate_body_schema_ok _ _ _ _ _ _ _ _ _ _ Hdb Hcoll Hschema).
  rewrite Hm. cbn [truthy].
  destruct (Agent.try_query_with_aggregation E db coll user_input schema
              (Printed (MatchFailed db coll e) :: h')) as [[e' | a] h3];
    [reflexivity | ].
  destruct (truthy a); reflexivity.
Qed.

Lemma agent_match_zero_matches_is_failure_sample :
  Agent.try_query_with_match Sample.zero_matches_world
    Sample.car_database Sample.cars Sample.request Sample.cars_schema []
  = (inr VNone,
     [Printed (MatchFailed Sample.car_database Sample.cars
                 (ValueError "No data found"));
      Called (Aggregate Sample.car_database Sample.cars
                (VList [VDict [("$match", VDict [])]]))
        (inr (VStr "Found 0 documents"));
      Called (LlmInvoke (MatchPrompt AgentPy Sample.request Sample.cars_schema))
        (inr (VStr "{}"));
      Printed (TryingMatch Sample.car_database Sample.cars)]).
Proof.
  apply (agent_match_zero_matches_is_failure Sample.zero_matches_world
           Sample.car_database Sample.cars Sample.request Sample.cars_schema []).
  apply (zero_matches Sample.zero_matches_world Sample.car_database Sample.cars
           Sample.request Sample.cars_schema []
           (VStr "{}") (VDict []) (VDict []) "Found 0 documents");
    reflexivity.
Defined.

(** C5 as stated fails: in agent.py a result reporting zero matches and a
    transport failure give the same outcome, None, and both are logged with
    the line "Smart $match failed". *)
Lemma agent_match_zero_matches_logged_like_failure :
  Agent.try_query_with_match Sample.zero_matches_world
    Sample.car_database Sample.cars Sample.request Sample.cars_schema []
  = (inr VNone,
     [Printed (MatchFailed Sample.car_database Sample.cars
                 (ValueError "No data found"));
      Called (Aggregate Sample.car_database Sample.cars
                (VList [VDict [("$match", VDict [])]]))
        (inr (VStr "Found 0 documents"));
      Called (LlmInvoke (MatchPrompt AgentPy Sample.request Sample.cars_schema))
        (inr (VStr "{}"));
      Printed (TryingMatch Sample.car_database Sample.cars)])
  /\
  Agent.try_query_with_match Sample.aggregate_down_world
    Sample.car_database Sample.cars Sample.request Sample.cars_schema []
  = (inr VNone,
     [Printed (MatchFailed Sample.car_database Sample.cars
                 (External "connection refused"));
      Called (Aggregate Sample.car_database Sample.cars
                (VList [VDict [("$match", VDict [])]]))
        (inl (External "connection refused"));
      Called (LlmInvoke (MatchPrompt AgentPy Sample.request Sample.cars_schema))
        (inr (VStr "{}"));
      Printed (TryingMatch Sample.car_database Sample.cars)]).
Proof. split; reflexivity. Qed.

(** In gg.py the test reads ["F`ound 0"], so a result reporting zero matches
    is returned as the result of the match. *)
Example gg_match_returns_zero_matches :
  fst (GG.try_query_with_match Sample.zero_matches_world
         Sample.car_database Sample.cars Sample.request Sample.cars_schema [])
  = inr (VStr "Found 0 documents").
Proof. reflexivity. Qed.

(* ================================================================== *)
(** ** try_query_with_aggregation *)

(** C6, as amended: in agent.py, [try_query_with_aggregation] asks the
    completion for a pipeline with the request and the schema, parses the
    stripped completion with [json.loads] and submits the parsed value, as
    it is, to the aggregation collaborator, whose result it returns; an
    error of the completion, of the parse or of the collaborator is printed
    and gives None.  In gg.py the function calls no completion and does not
    use the schema: it obtains the aggregation tool, builds a tool agent and
    hands it a fixed text-search pipeline over the request for the
    collection, returning the agent's result; an error of any of the three
    is printed and gives None. *)
Theorem try_query_with_aggregation_runs (E : env) (db coll : value)
  (user_input : string) (schema : value) (h : history) :
  Agent.try_query_with_aggregation E db coll user_input schema h
  = (let h1 := Printed (TryingAggregation db coll) :: h in
     let p := LlmInvoke (AggPrompt user_input schema) in
     let failed (e : exn) (h' : history) :=
       (inr VNone, Printed (AggregationFailed e) :: h') in
     match oracle E h1 p with
     | inl e => failed e (Called p (inl e) :: h1)
     | inr content =>
         let h2 := Called p (inr content) :: h1 in
         match loads_content E content with
         | inl e => failed e h2
         | inr pipeline =>
             let q := Aggregate db coll pipeline in
             match oracle E h2 q with
             | inl e => failed e (Called q (inl e) :: h2)
             | inr result => (inr result, Called q (inr result) :: h2)
             end
         end
     end)
  /\
  GG.try_query_with_aggregation E db coll user_input schema h
  = (let h1 := Printed (TryingAggregation db coll) :: h in
     let failed (e : exn) (h' : history) :=
       (inr VNone, Printed (AggregationFailedOn db coll e) :: h') in
     match oracle E h1 GetAggregationTool with
     | inl e => failed e (Called GetAggregationTool (inl e) :: h1)
     | inr tool =>
         let h2 := Called GetAggregationTool (inr tool) :: h1 in
         match oracle E h2 NewToolAgent with
         | inl e => failed e (Called NewToolAgent (inl e) :: h2)
         | inr agent =>
             let h3 := Called NewToolAgent (inr agent) :: h2 in
             let q := AgentAinvoke (GG.text_search_query coll user_input) in
             match oracle E h3 q with
             | inl e => failed e (Called q (inl e) :: h3)
             | inr result => (inr result, Called q (inr result) :: h3)
             end
         end
     end).
Proof.
  split.
  - unfold Agent.try_query_with_aggregation, bind, attempt, print, invoke,
      lift, ret.
    cbv zeta.
    destruct (oracle E (Printed (TryingAggregation db coll) :: h)
                (LlmInvoke (AggPrompt user_input schema))) as [e | content];
      [reflexivity | ].
    destruct (loads_content E content) as [e | pipeline]; [reflexivity | ].
    destruct (oracle E _ (Aggregate db coll pipeline)); reflexivity.
  - unfold GG.try_query_with_aggregation, bind, attempt, print, invoke, ret.
    cbv zeta.
    destruct (oracle E (Printed (TryingAggregation db coll) :: h)
                GetAggregationTool) as [e | tool]; [reflexivity | ].
    destruct (oracle E _ NewToolAgent) as [e | agent]; [reflexivity | ].
    destruct (oracle E _ (AgentAinvoke _)); reflexivity.
Qed.

(** C6 as stated fails on gg.py: the pipeline strategy there returns two
    documents without any completion call, from a fixed text-search
    pipeline handed to a tool agent. *)
Lemma gg_aggregation_calls_no_completion :
  GG.try_query_with_aggregation Sample.tool_agent_world
    Sample.car_database Sample.cars Sample.request Sample.cars_schema []
  = (inr Sample.two_documents,
     [Called
        (AgentAinvoke
           (VDict [("collection", Sample.cars);
                   ("pipeline",
                    VList [VDict [("$match",
                                   VDict [("$text",
                                           VDict [("$search",
                                                   VStr Sample.request)])])]])]))
        (inr Sample.two_documents);
      Called NewToolAgent (inr VNone);
      Called GetAggregationTool (inr VNone);
      Printed (TryingAggregation Sample.car_database Sample.cars)]).
Proof. reflexivity. Qed.

(* ================================================================== *)
(** ** suggest_db_collection_candidates *)

Lemma gg_collect_returns (E : env) (db_names : list value) :
  forall (m : inventory) (h : history),
    exists m' h', GG.collect E db_names m h = (inr m', h').
Proof.
  induction db_names as [ | db rest IH ]; intros m h.
  - now exists m, h.
  - cbn [GG.collect]. unfold bind, attempt, invoke, lift.
    destruct (oracle E h (ListCollections db)) as [e | colls]; [apply IH | ].
    destruct (_ <-- names_of colls "collections" ;; _)%res; apply IH.
Qed.

(** In gg.py a database whose collections cannot be listed is left out of
    the inventory and the loop goes on with the next database. *)
Lemma gg_collect_skips (E : env) (db : value) (rest : list value)
  (m : inventory) (h : history) (e : exn) :
  oracle E h (ListCollections db) = inl e ->
  GG.collect E (db :: rest) m h
  = GG.collect E rest m (Called (ListCollections db) (inl e) :: h).
Proof.
  intros He. cbn [GG.collect]. unfold bind, attempt, invoke, lift.
  now rewrite He.
Qed.

Example gg_ranks_without_shop :
  GG.suggest_db_collection_candidates Sample.shop_unlisted_world
    Sample.request []
  = (inr (VList [Sample.library_candidate]),
     [Called (LlmInvoke (RankPrompt GgPy Sample.request
                           [(Sample.library, VList [Sample.books])]))
        (inr (VStr Sample.ranking_text));
      Called (ListCollections Sample.library)
        (inr Sample.collections_of_library);
      Called (ListCollections (VStr "shop")) Sample.offline;
      Called ListDatabases (inr Sample.databases)]).
Proof. reflexivity. Qed.

(** C8 fails on agent.py: its inventory loop has no handler of its own, so
    when the collections of one database ([shop]) cannot be listed, the
    other database is never listed, the completion is never asked to rank,
    and the function falls back to the default candidate. *)
Theorem agent_collect_failure_aborts_ranking :
  Agent.suggest_db_collection_candidates Sample.shop_unlisted_world
    Sample.request []
  = (inr default_candidates,
     [Printed (SuggestionFailed (External "connection refused"));
      Called (ListCollections (VStr "shop")) Sample.offline;
      Called ListDatabases (inr Sample.databases)]).
Proof. reflexivity. Qed.

(** A [try] block whose handler prints and returns a default never raises. *)
Lemma handled_returns (c : M value) (l : exn -> line) (default : value)
  (h : history) :
  exists v h',
    (r <- attempt c ;;
     match r with
     | inr x => ret x
     | inl e => print (l e) ;; ret default
     end) h = (inr v, h').
Proof.
  unfold bind, attempt, print, ret.
  destruct (c h) as [[e | v] h']; eauto.
Qed.

(** In both scripts a completion that is valid JSON is returned as parsed:
    its shape is not looked at. *)
Lemma suggest_returns_parsed (src : script) (E : env) (user_input : string)
  (h h1 : history) (dbs : value) (db_names : list value) (m : inventory)
  (content candidates : value) :
  oracle E h ListDatabases = inr dbs ->
  names_of dbs "databases" = inr db_names ->
  collect_of src E db_names [] (Called ListDatabases (inr dbs) :: h) = (inr m, h1) ->
  oracle E h1 (LlmInvoke (RankPrompt src user_input m)) = inr content ->
  loads_content E content = inr candidates ->
  suggest_of src E user_input h
  = (inr candidates,
     Called (LlmInvoke (RankPrompt src user_input m)) (inr content) :: h1).
Proof.
  intros Hdbs Hnames Hcollect Hllm Hparse.
  destruct src; cbn [suggest_of collect_of] in *;
    unfold Agent.suggest_db_collection_candidates,
      GG.suggest_db_collection_candidates, bind, attempt, invoke, lift,
      print, ret;
    now rewrite Hdbs, Hnames, Hcollect, Hllm, Hparse.
Qed.

(** C7, as amended: in both scripts [suggest_db_collection_candidates]
    never raises.  It returns exactly the default candidate, after printing
    the failure, when the list-databases call raises, when its answer has no
    list of named databases, when the inventory loop raises, when the
    completion call raises, and when the completion is not valid JSON
    ([json.loads] raises). *)
Theorem suggest_returns_default_on_error (src : script) (E : env)
  (user_input : string) (h : history) :
  (exists v h', suggest_of src E user_input h = (inr v, h'))
  /\
  (forall e, oracle E h ListDatabases = inl e ->
     suggest_of src E user_input h
     = (inr default_candidates,
        Printed (SuggestionFailed e) :: Called ListDatabases (inl e) :: h))
  /\
  (forall dbs e,
     oracle E h ListDatabases = inr dbs ->
     names_of dbs "databases" = inl e ->
     suggest_of src E user_input h
     = (inr default_candidates,
        Printed (SuggestionFailed e) :: Called ListDatabases (inr dbs) :: h))
  /\
  (forall dbs db_names e h1,
     oracle E h ListDatabases = inr dbs ->
     names_of dbs "databases" = inr db_names ->
     collect_of src E db_names [] (Called ListDatabases (inr dbs) :: h)
     = (inl e, h1) ->
     suggest_of src E user_input h
     = (inr default_candidates, Printed (SuggestionFailed e) :: h1))
  /\
  (forall dbs db_names m h1 e,
     oracle E h ListDatabases = inr dbs ->
     names_of dbs "databases" = inr db_names ->
     collect_of src E db_names [] (Called ListDatabases (inr dbs) :: h)
     = (inr m, h1) ->
     let p := LlmInvoke (RankPrompt src user_input m) in
     oracle E h1 p = inl e
     \/ (exists content,
           oracle E h1 p = inr content /\ loads_content E content = inl e) ->
     suggest_of src E user_input h
     = (inr default_candidates,
        Printed (SuggestionFailed e) :: Called p (oracle E h1 p) :: h1)).
Proof.
  repeat split.
  - destruct src; cbn [suggest_of];
      apply (handled_returns _ SuggestionFailed default_candidates).
  - intros e He.
    destruct src; cbn [suggest_of];
      unfold Agent.suggest_db_collection_candidates,
        GG.suggest_db_collection_candidates, bind, attempt, invoke, print, ret;
      now rewrite He.
  - intros dbs e Hdbs Hnames.
    destruct src; cbn [suggest_of];
      unfold Agent.suggest_db_collection_candidates,
        GG.suggest_db_collection_candidates, bind, attempt, invoke, lift,
        print, ret;
      now rewrite Hdbs, Hnames.
  - intros dbs db_names e h1 Hdbs Hnames Hcollect.
    destruct src; cbn [suggest_of collect_of] in *;
      unfold Agent.suggest_db_collection_candidates,
        GG.suggest_db_collection_candidates, bind, attempt, invoke, lift,
        print, ret;
      now rewrite Hdbs, Hnames, Hcollect.
  - intros dbs db_names m h1 e Hdbs Hnames Hcollect p Hfail. subst p.
    destruct src; cbn [suggest_of collect_of] in *;
      unfold Agent.suggest_db_collection_candidates,
        GG.suggest_db_collection_candidates, bind, attempt, invoke, lift,
        print, ret;
      rewrite Hdbs, Hnames, Hcollect;
      destruct Hfail as [-> | [content [-> ->]]]; reflexivity.
Qed.

Lemma suggest_returns_default_on_error_sample :
  Agent.suggest_db_collection_candidates Sample.chatty_world Sample.request []
  = (inr default_candidates,
     Printed (SuggestionFailed JSONDecodeError)
     :: Called (LlmInvoke (RankPrompt AgentPy Sample.request
                             Sample.full_inventory))
          (inr (VStr "Here are the three best pairs."))
     :: Sample.inventory_listed).
Proof.
  apply (proj2 (proj2 (proj2 (proj2
           (suggest_returns_default_on_error AgentPy Sample.chatty_world
              Sample.request []))))
           Sample.databases [VStr "shop"; Sample.library]
           Sample.full_inventory Sample.inventory_listed JSONDecodeError);
    try reflexivity.
  right. exists (VStr "Here are the three best pairs."). split; reflexivity.
Defined.

(** C7 as stated fails: a completion that is valid JSON but no array of
    database/collection pairs (here an array holding an empty object) is
    what the function returns, in both scripts; the default candidate is
    not substituted. *)
Lemma suggest_returns_malformed_ranking :
  Agent.suggest_db_collection_candidates Sample.keyless_world Sample.request []
  = (inr (VList [VDict []]),
     Called (LlmInvoke (RankPrompt AgentPy Sample.request Sample.full_inventory))
       (inr (VStr "[{}]"))
     :: Sample.inventory_listed)
  /\
  GG.suggest_db_collection_candidates Sample.keyless_world Sample.request []
  = (inr (VList [VDict []]),
     Called (LlmInvoke (RankPrompt GgPy Sample.request Sample.full_inventory))
       (inr (VStr "[{}]"))
     :: Sample.inventory_listed)
  /\ VList [VDict []] <> default_candidates.
Proof.
  repeat split; try reflexivity. discriminate.
Qed.

(* ================================================================== *)
(** ** main *)

(** The end-to-end run of the specification: the agent attempt finds
    nothing, the completion ranks one candidate, the match finds two
    documents and the aggregation is never tried. *)
Example main_request_red_cars :
  fst (Agent.main_request Sample.end_to_end_world Sample.request [])
  = inr (ByMatch Sample.two_documents).
Proof. reflexivity. Qed.

(** C3 fails on both scripts: [main] reads [candidate["database"]] and
    [candidate["collection"]] outside every [try].  When the agent attempt
    finds nothing and the completion ranks [[{}]], the KeyError leaves the
    candidate loop and [main] uncaught. *)
Theorem main_request_key_error_escapes :
  Agent.main_request Sample.keyless_world Sample.request []
  = (inl (KeyError "database"),
     [Called (LlmInvoke (RankPrompt AgentPy Sample.request Sample.full_inventory))
        (inr (VStr "[{}]"))]
     ++ Sample.inventory_listed
     ++ [Printed (AgentFallback (ValueError "No documents found"));
         Called (AgentRun Sample.request) (inr (VStr "Found 0 documents"));
         Printed Executing;
         Printed (Steps (VStr "1. look into the cars collection"));
         Called (LlmInvoke (PlanPrompt AgentPy Sample.request))
           (inr (VStr "1. look into the cars collection"));
         Printed Planning])
  /\
  GG.main_request Sample.keyless_world Sample.request []
  = (inl (KeyError "database"),
     [Called (LlmInvoke (RankPrompt GgPy Sample.request Sample.full_inventory))
        (inr (VStr "[{}]"))]
     ++ Sample.inventory_listed
     ++ [Printed (AgentFallback (ValueError "No documents found"));
         Called (AgentRun Sample.request) (inr (VStr "Found 0 documents"));
         Printed Executing;
         Printed (Steps (VStr "1. look into the cars collection"));
         Called (LlmInvoke (PlanPrompt GgPy Sample.request))
           (inr (VStr "1. look into the cars collection"));
         Printed Planning]).
Proof. split; reflexivity. Qed.

(* ================================================================== *)
(** * Further properties of the code *)

(** ** Dicts *)

Lemma distinct_NoDup (ks : list string) : distinct ks = true -> NoDup ks.
Proof.
  induction ks as [ | k ks IH ]; cbn; intros H.
  - constructor.
  - apply andb_prop in H as [Hk Hks]. constructor; [ | now apply IH].
    intros Hin. apply negb_true_iff in Hk.
    assert (Ht : existsb (String.eqb k) ks = true).
    { apply existsb_exists. exists k. split; [exact Hin | apply String.eqb_refl]. }
    congruence.
Qed.

Lemma lookup_dict_set_same d k v : lookup k (dict_set d k v) = Some v.
Proof.
  induction d as [ | [k' v'] d IH ]; cbn.
  - now rewrite String.eqb_refl.
  - destruct (String.eqb_spec k k') as [-> | Hne]; cbn.
    + now rewrite String.eqb_refl.
    + destruct (String.eqb_spec k k'); [contradiction | exact IH].
Qed.

Lemma lookup_dict_set_other d k v k0 :
  k0 <> k -> lookup k0 (dict_set d k v) = lookup k0 d.
Proof.
  intros Hne. induction d as [ | [k' v'] d IH ]; cbn.
  - destruct (String.eqb_spec k0 k); [contradiction | reflexivity].
  - destruct (String.eqb_spec k k') as [-> | Hk]; cbn.
    + destruct (String.eqb_spec k0 k'); [contradiction | reflexivity].
    + now rewrite IH.
Qed.

(** ** make_case_insensitive on a dict with distinct keys *)

Lemma rewrite_items_map schema l : forall acc out,
  NoDup (keys (acc ++ l)) ->
  rewrite_items schema l acc = inr out ->
  exists l', out = acc ++ l' /\ Forall2 (rewritten schema) l l'.
Proof.
  induction l as [ | [k v] l IH ]; intros acc out Hnd H.
  - cbn in H. injection H as <-. exists []. rewrite app_nil_r.
    split; [reflexivity | constructor].
  - rewrite rewrite_items_cons in H.
    destruct (rewrite_value schema k v) as [e | r] eqn:Hr; cbn [rbind] in H;
      [discriminate | ].
    assert (Hfresh : ~ In k (keys acc)).
    { unfold keys in *. rewrite map_app in Hnd. cbn in Hnd.
      apply NoDup_remove_2 in Hnd. intros Hin. apply Hnd.
      apply in_or_app. now left. }
    rewrite (dict_set_fresh _ _ _ Hfresh) in H.
    destruct (IH (acc ++ [(k, r)]) out) as [l' [-> HF]]; [ | exact H | ].
    + unfold keys in *. rewrite <- app_assoc. cbn.
      rewrite map_app in *. exact Hnd.
    + exists ((k, r) :: l'). rewrite <- app_assoc. split; [reflexivity | ].
      constructor; [now split | exact HF].
Qed.

Lemma rewritten_keys schema l l' :
  Forall2 (rewritten schema) l l' -> keys l' = keys l.
Proof.
  induction 1 as [ | kv kv' l l' [Hk _] _ IH ]; [reflexivity | ].
  unfold keys in *. cbn [map]. now rewrite Hk, IH.
Qed.

Lemma rewritten_lookup schema l l' k v :
  Forall2 (rewritten schema) l l' ->
  lookup k l = Some v ->
  exists r, rewrite_value schema k v = inr r /\ lookup k l' = Some r.
Proof.
  induction 1 as [ | [k1 v1] [k2 v2] l l' [Hk Hr] _ IH ]; cbn;
    [discriminate | ].
  cbn in Hk, Hr. subst k2.
  destruct (String.eqb_spec k k1) as [-> | Hne].
  - intros [= <-]. now exists v2.
  - exact IH.
Qed.

Lemma make_case_insensitive_dict_map schema d r :
  distinct (keys d) = true ->
  make_case_insensitive (VDict d) schema = inr r ->
  exists d', r = VDict d' /\ Forall2 (rewritten schema) d d'.
Proof.
  intros Hd H. rewrite make_case_insensitive_dict in H.
  destruct (rewrite_items schema d []) as [e | out] eqn:Hout;
    cbn [rbind] in H; [discriminate | ]. injection H as <-.
  destruct (rewrite_items_map schema d [] out) as [d' [-> HF]];
    [now apply distinct_NoDup | exact Hout | ].
  now exists d'.
Qed.

(** X1: the rewrite of a dict keeps its keys, in their order: no field is
    dropped, added, merged or moved. *)
Theorem make_case_insensitive_keeps_keys (d : list (string * value))
  (schema r : value) :
  distinct (keys d) = true ->
  make_case_insensitive (VDict d) schema = inr r ->
  exists d', r = VDict d' /\ keys d' = keys d.
Proof.
  intros Hd H.
  destruct (make_case_insensitive_dict_map schema d r Hd H) as [d' [-> HF]].
  exists d'. split; [reflexivity | exact (rewritten_keys _ _ _ HF)].
Qed.

(** X2: what the rewrite of a dict leaves under each key.  A string under a
    key listed in the schema's string fields becomes the pattern condition;
    a string under any other key stays as it is; a dict is rewritten by the
    same rule; every other value (a number, a boolean, None, and a list
    with whatever it holds) stays as it is. *)
Theorem make_case_insensitive_fieldwise (d d' : list (string * value))
  (schema : value) (k : string) (v : value) :
  distinct (keys d) = true ->
  make_case_insensitive (VDict d) schema = inr (VDict d') ->
  lookup k d = Some v ->
  match v with
  | VStr x =>
      exists b, in_string_fields schema k = inr b /\
                lookup k d' = Some (if b : bool then regex_condition x else VStr x)
  | VDict _ =>
      exists r, make_case_insensitive v schema = inr r /\ lookup k d' = Some r
  | _ => lookup k d' = Some v
  end.
Proof.
  intros Hd H Hk.
  destruct (make_case_insensitive_dict_map schema d _ Hd H) as [d0 [[= <-] HF]].
  destruct (rewritten_lookup _ _ _ _ _ HF Hk) as [r [Hr Hl]].
  destruct v; cbn [rewrite_value] in Hr;
    try (injection Hr as <-; exact Hl).
  - destruct (in_string_fields schema k) as [e | b]; cbn [rbind] in Hr;
      [discriminate | ]. injection Hr as <-. now exists b.
  - now exists r.
Qed.

(** X3: under a schema whose list of string fields is empty or missing,
    the rewrite returns every well-formed filter unchanged. *)
Theorem make_case_insensitive_no_string_fields (f schema : value) :
  dict_get schema "string_fields" (VList []) = inr (VList []) ->
  well_formed f = true ->
  make_case_insensitive f schema = inr f.
Proof.
  intros Hsf. induction f using value_ind; intros Hwf; try reflexivity.
  cbn [well_formed] in Hwf. apply andb_prop in Hwf as [Hd Hall].
  rewrite make_case_insensitive_dict.
  assert (Hs : Forall (settled schema) d).
  { rewrite forallb_forall in Hall. rewrite Forall_forall in H |- *.
    intros [k v] Hin. unfold settled. cbn [fst snd].
    specialize (H _ Hin). specialize (Hall _ Hin). cbn [snd] in H, Hall.
    destruct v; cbn [rewrite_value]; try reflexivity.
    - unfold in_string_fields. now rewrite Hsf.
    - now apply H. }
  rewrite (rewrite_items_settled schema d [] Hs). cbn [rbind].
  now rewrite (store_all_NoDup d []); [ | apply distinct_NoDup].
Qed.

(** *** The rewrite returns whenever membership in the string fields can be
    tested *)

Section Returns.

Variable schema : value.
Hypothesis testable : forall k, exists b, in_string_fields schema k = inr b.



End Returns.



Lemma make_case_insensitive_keeps_keys_sample :
  exists d', VDict Cases.nested_rewritten = VDict d' /\
             keys d' = ["color"; "tags"; "owner"].
Proof.
  apply (make_case_insensitive_keeps_keys Cases.nested_items Sample.cars_schema
           (VDict Cases.nested_rewritten)); reflexivity.
Defined.

Lemma make_case_insensitive_fieldwise_sample :
  lookup "tags" Cases.nested_rewritten
  = Some (VList [VStr "red"; VDict [("color", VStr "red")]]).
Proof.
  apply (make_case_insensitive_fieldwise Cases.nested_items
           Cases.nested_rewritten Sample.cars_schema "tags"
           (VList [VStr "red"; VDict [("color", VStr "red")]]));
    reflexivity.
Defined.

Lemma make_case_insensitive_no_string_fields_sample :
  make_case_insensitive Cases.nested_filter Cases.bare_schema
  = inr Cases.nested_filter.
Proof.
  apply (make_case_insensitive_no_string_fields Cases.nested_filter
           Cases.bare_schema); reflexivity.
Defined.


(* ================================================================== *)
(** ** get_collection_schema on a list of field descriptions *)

Lemma string_fields_of_named (fs : list value) :
  forallb is_dict fs = true ->
  forallb (fun f => implb (is_string_field f) (has_name f)) fs = true ->
  string_fields_of fs = inr (map field_name (filter is_string_field fs)).
Proof.
  induction fs as [ | f fs IH ]; cbn [forallb]; intros Hd Hn; [reflexivity | ].
  apply andb_prop in Hd as [Hf Hd]. apply andb_prop in Hn as [Hfn Hn].
  specialize (IH Hd Hn). destruct f; try discriminate.
  cbn [string_fields_of dict_get filter is_string_field has_name] in *.
  destruct (lookup "bsonType" d) as [b | ]; cbn [rbind].
  - destruct (is_the_str "string" b); [ | exact IH].
    cbn [getitem map field_name].
    destruct (lookup "name" d) as [n | ]; [ | discriminate].
    cbn [rbind]. now rewrite IH.
  - exact IH.
Qed.

Lemma string_fields_of_nameless (fs : list value) :
  forallb is_dict fs = true ->
  existsb (fun f => is_string_field f && negb (has_name f)) fs = true ->
  string_fields_of fs = inl (KeyError "name").
Proof.
  induction fs as [ | f fs IH ]; cbn [forallb existsb]; intros Hd Hn;
    [discriminate | ].
  apply andb_prop in Hd as [Hf Hd]. destruct f; try discriminate.
  cbn [string_fields_of dict_get is_string_field has_name] in *.
  destruct (lookup "bsonType" d) as [b | ]; cbn [rbind].
  - destruct (is_the_str "string" b).
    + cbn [getitem]. destruct (lookup "name" d) as [n | ]; [ | reflexivity].
      cbn [rbind]. cbn in Hn. now rewrite (IH Hd Hn).
    + cbn in Hn. exact (IH Hd Hn).
  - cbn in Hn. exact (IH Hd Hn).
Qed.

(** X5: when the schema collaborator answers a description whose field
    descriptions are dicts and every string-typed one has a name,
    [get_collection_schema] returns the description with, under
    ["string_fields"], the names of exactly the fields whose [bsonType] is
    ["string"], in the order of the description; every other entry of the
    description is returned as it was. *)
Theorem get_collection_schema_string_fields (E : env) (db coll : value)
  (h : history) (d : list (string * value)) (fs : list value) :
  oracle E h (CollectionSchema db coll) = inr (VDict d) ->
  lookup "fields" d = Some (VList fs) ->
  forallb is_dict fs = true ->
  forallb (fun f => implb (is_string_field f) (has_name f)) fs = true ->
  exists schema,
    get_collection_schema E db coll h
    = (inr (VDict schema),
       Called (CollectionSchema db coll) (inr (VDict d)) :: h)
    /\ lookup "string_fields" schema
       = Some (VList (map field_name (filter is_string_field fs)))
    /\ forall k, k <> "string_fields" -> lookup k schema = lookup k d.
Proof.
  intros Ho Hf Hd Hn.
  exists (dict_set d "string_fields"
            (VList (map field_name (filter is_string_field fs)))).
  split; [ | split].
  - unfold get_collection_schema, bind, invoke, lift. rewrite Ho.
    cbn [dict_get]. rewrite Hf. cbn [rbind iter].
    now rewrite (string_fields_of_named fs Hd Hn).
  - apply lookup_dict_set_same.
  - intros k Hk. now apply lookup_dict_set_other.
Qed.

Lemma get_collection_schema_string_fields_sample :
  exists schema,
    get_collection_schema Cases.mixed_world Sample.car_database Sample.cars []
    = (inr (VDict schema),
       [Called (CollectionSchema Sample.car_database Sample.cars)
          (inr (VDict Cases.mixed_description))])
    /\ lookup "string_fields" schema = Some (VList [VStr "make"; VStr "color"])
    /\ forall k, k <> "string_fields" ->
                 lookup k schema = lookup k Cases.mixed_description.
Proof.
  apply (get_collection_schema_string_fields Cases.mixed_world
           Sample.car_database Sample.cars [] Cases.mixed_description
           Cases.mixed_fields); reflexivity.
Defined.

(** X6: when the field descriptions are dicts and one whose [bsonType] is
    ["string"] has no ["name"], [get_collection_schema] raises
    KeyError("name"): the candidate is given up although the collaborator
    answered.  (A field of another type may lack its name: see
    [Cases.mixed_fields].) *)
Theorem get_collection_schema_nameless_string_field (E : env) (db coll : value)
  (h : history) (d : list (string * value)) (fs : list value) :
  oracle E h (CollectionSchema db coll) = inr (VDict d) ->
  lookup "fields" d = Some (VList fs) ->
  forallb is_dict fs = true ->
  existsb (fun f => is_string_field f && negb (has_name f)) fs = true ->
  get_collection_schema E db coll h
  = (inl (KeyError "name"),
     Called (CollectionSchema db coll) (inr (VDict d)) :: h).
Proof.
  intros Ho Hf Hd Hn.
  unfold get_collection_schema, bind, invoke, lift. rewrite Ho.
  cbn [dict_get]. rewrite Hf. cbn [rbind iter].
  now rewrite (string_fields_of_nameless fs Hd Hn).
Qed.

Lemma get_collection_schema_nameless_string_field_sample :
  get_collection_schema Cases.nameless_world Sample.car_database Sample.cars []
  = (inl (KeyError "name"),
     [Called (CollectionSchema Sample.car_database Sample.cars)
        (inr (VDict [("fields", VList Cases.nameless_fields)]))]).
Proof.
  apply (get_collection_schema_nameless_string_field Cases.nameless_world
           Sample.car_database Sample.cars []
           [("fields", VList Cases.nameless_fields)] Cases.nameless_fields);
    reflexivity.
Defined.

(* ================================================================== *)
(** ** Where an exception can leave main, and where it cannot *)










(* ================================================================== *)
(** ** What the candidate loop reports *)

Section Reports.

Variable E : env.
Variables try_match try_aggregation : value -> value -> string -> value -> M value.
Variable user_input : string.

Lemma candidate_body_reports (c : value) (h h' : history) (r : resolution) :
  candidate_body E try_match try_aggregation user_input c h
  = (inr (Some r), h') ->
  match r with
  | ByMatch v =>
      truthy v = true /\
      exists db coll h'', h' = Printed (SmartMatchResult db coll v) :: h''
  | ByAggregation v =>
      truthy v = true /\
      exists db coll h'', h' = Printed (AggregationResult db coll v) :: h''
  | _ => False
  end.
Proof.
  unfold candidate_body, bind, lift, attempt, print, ret.
  destruct (getitem c "database") as [e | db]; [discriminate | ].
  destruct (getitem c "collection") as [e | coll]; [discriminate | ].
  destruct (get_collection_schema E db coll h) as [[e | schema] h1];
    [discriminate | ].
  destruct (try_match db coll user_input schema h1) as [[e | m] h2];
    [discriminate | ].
  destruct (truthy m) eqn:Hm; [intros [= <- <-]; eauto 6 | ].
  destruct (try_aggregation db coll user_input schema h2) as [[e | a] h3];
    [discriminate | ].
  destruct (truthy a) eqn:Ha; [intros [= <- <-]; eauto 6 | discriminate].
Qed.

End Reports.

Lemma candidate_loop_not_by_agent (E : env)
  (try_match try_aggregation : value -> value -> string -> value -> M value)
  (user_input : string) (cs : list value) (r : value) : forall h h',
  candidate_loop E try_match try_aggregation user_input cs h
  <> (inr (ByAgent r), h').
Proof.
  induction cs as [ | c cs IH ]; intros h h' H.
  - cbn in H. unfold bind, print, ret in H. discriminate.
  - rewrite candidate_loop_cons in H.
    destruct (candidate_body E try_match try_aggregation user_input c h)
      as [[e | [r0 | ]] h0] eqn:Hbody.
    + discriminate.
    + injection H as -> _.
      exact (candidate_body_reports _ _ _ _ _ _ _ _ Hbody).
    + exact (IH _ _ H).
Qed.

(** X9: whatever the two strategies are, when the candidate loop of [main]
    returns, it returns a match or aggregation result only if that value is
    truthy and the line showing it was the last thing printed; otherwise it
    returns "exhausted" with the line "All retries failed" printed last.  It
    never returns an agent result. *)
Theorem candidate_loop_reports (E : env)
  (try_match try_aggregation : value -> value -> string -> value -> M value)
  (user_input : string) (cs : list value) (h h' : history) (r : resolution) :
  candidate_loop E try_match try_aggregation user_input cs h = (inr r, h') ->
  match r with
  | ByAgent _ => False
  | ByMatch v =>
      truthy v = true /\
      exists db coll h'', h' = Printed (SmartMatchResult db coll v) :: h''
  | ByAggregation v =>
      truthy v = true /\
      exists db coll h'', h' = Printed (AggregationResult db coll v) :: h''
  | AllExhausted => exists h'', h' = Printed AllRetriesFailed :: h''
  end.
Proof.
  revert h. induction cs as [ | c cs IH ]; intros h H.
  - cbn in H. unfold bind, print, ret in H. injection H as <- <-.
    eexists. reflexivity.
  - rewrite candidate_loop_cons in H.
    destruct (candidate_body E try_match try_aggregation user_input c h)
      as [[e | [r0 | ]] h0] eqn:Hbody.
    + discriminate.
    + injection H as <- <-.
      pose proof (candidate_body_reports _ _ _ _ _ _ _ _ Hbody) as Hr.
      destruct r0; try contradiction; exact Hr.
    + exact (IH _ H).
Qed.

Lemma candidate_loop_reports_sample :
  truthy Sample.two_documents = true /\
  exists db coll h'',
    Printed (AggregationResult Sample.car_database Sample.cars
               Sample.two_documents) :: Sample.cars_aggregated
    = Printed (AggregationResult db coll Sample.two_documents) :: h''.
Proof.
  apply (candidate_loop_reports Sample.shop_world
           (Agent.try_query_with_match Sample.shop_world)
           (Agent.try_query_with_aggregation Sample.shop_world)
           Sample.request [Sample.shop_candidate; Sample.car_candidate] []
           _ (ByAggregation Sample.two_documents)).
  reflexivity.
Defined.

(** X14: when the schema collaborator raises [e] for every collection, the
    loop gives up every candidate in turn, however many there are, with one
    schema call and one printed line each, and returns "exhausted"; neither
    strategy runs, whatever the two strategies are. *)
Theorem candidate_loop_all_schemas_fail (E : env)
  (try_match try_aggregation : value -> value -> string -> value -> M value)
  (user_input : string) (e : exn) (targets : list (value * value))
  (h : history) :
  (forall h0 db coll, oracle E h0 (CollectionSchema db coll) = inl e) ->
  candidate_loop E try_match try_aggregation user_input
    (map candidate_of targets) h
  = (inr AllExhausted, Printed AllRetriesFailed :: schema_failures e targets h)
  /\ schema_calls (schema_failures e targets h)
     = (length targets + schema_calls h)%nat.
Proof.
  intros Hdown. revert h.
  induction targets as [ | [db coll] targets IH ]; intros h.
  - split; reflexivity.
  - destruct (IH (Printed (SchemaLoadFailed db coll e)
                  :: Called (CollectionSchema db coll) (inl e) :: h))
      as [Hloop Hcount].
    split.
    + cbn [map schema_failures]. rewrite candidate_loop_cons.
      unfold candidate_body, bind, lift, attempt, print, ret.
      cbn [candidate_of fst snd getitem lookup String.eqb Ascii.eqb Bool.eqb].
      unfold get_collection_schema, bind, invoke. rewrite Hdown.
      exact Hloop.
    + cbn [schema_failures]. rewrite Hcount.
      change (schema_calls (Printed (SchemaLoadFailed db coll e)
                            :: Called (CollectionSchema db coll) (inl e) :: h))
        with (S (schema_calls h)).
      cbn [length]. lia.
Qed.

Lemma candidate_loop_all_schemas_fail_sample :
  candidate_loop Cases.dark_world
    (Agent.try_query_with_match Cases.dark_world)
    (Agent.try_query_with_aggregation Cases.dark_world)
    Sample.request (map candidate_of Cases.four_targets) []
  = (inr AllExhausted,
     Printed AllRetriesFailed
     :: schema_failures (External "connection refused") Cases.four_targets [])
  /\ schema_calls
       (schema_failures (External "connection refused") Cases.four_targets [])
     = 4%nat.
Proof.
  apply (candidate_loop_all_schemas_fail Cases.dark_world
           (Agent.try_query_with_match Cases.dark_world)
           (Agent.try_query_with_aggregation Cases.dark_world)
           Sample.request (External "connection refused")
           Cases.four_targets []).
  reflexivity.
Defined.

(* ================================================================== *)
(** ** The test for a text that reports zero results *)

Lemma prefix_append (n post : string) :
  String.prefix n (n ++ post)%string = true.
Proof.
  induction n as [ | a n IH ]; [now destruct post | ].
  cbn. destruct (ascii_dec a a); [exact IH | contradiction].
Qed.

Lemma prefix_inv (n : string) : forall hay,
  String.prefix n hay = true -> exists post, hay = (n ++ post)%string.
Proof.
  induction n as [ | a n IH ]; intros hay H.
  - now exists hay.
  - destruct hay as [ | b hay]; cbn in H; [discriminate | ].
    destruct (ascii_dec a b) as [-> | ]; [ | discriminate].
    destruct (IH hay H) as [post ->]. now exists post.
Qed.

Lemma contains_prefix (n hay : string) :
  String.prefix n hay = true -> contains n hay = true.
Proof.
  intros H. destruct hay; cbn [contains]; now rewrite H.
Qed.

Lemma contains_append (pre n post : string) :
  contains n (pre ++ n ++ post)%string = true.
Proof.
  induction pre as [ | c pre IH ].
  - cbn [append]. apply contains_prefix, prefix_append.
  - cbn [append contains]. rewrite IH. apply orb_true_r.
Qed.

Lemma contains_inv (n : string) : forall hay,
  contains n hay = true -> exists pre post, hay = (pre ++ n ++ post)%string.
Proof.
  induction hay as [ | c hay IH ]; cbn [contains]; intros H.
  - rewrite orb_false_r in H. destruct (prefix_inv _ _ H) as [post Hp].
    now exists "", post.
  - apply orb_prop in H as [H | H].
    + destruct (prefix_inv _ _ H) as [post Hp]. now exists "", post.
    + destruct (IH H) as [pre [post ->]]. now exists (String c pre), post.
Qed.

(* ================================================================== *)
(** ** The agent attempt of main *)

Lemma fallback_reports (E : env) (suggest : string -> M value)
  (try_match try_aggregation : value -> value -> string -> value -> M value)
  (user_input : string) (h h' : history) (r : value) :
  fallback E suggest try_match try_aggregation user_input h
  <> (inr (ByAgent r), h').
Proof.
  unfold fallback, bind, lift.
  destruct (suggest user_input h) as [[e | v] h1]; [discriminate | ].
  destruct (iter v) as [e | cs]; [discriminate | ].
  exact (candidate_loop_not_by_agent _ _ _ _ _ _ _ _).
Qed.

Lemma agent_attempt_run (E : env) (src : script) (user_input : string)
  (h : history) :
  agent_attempt E src user_input h
  = (let p := LlmInvoke (PlanPrompt src user_input) in
     match oracle E (Printed Planning :: h) p with
     | inl e => (inl e, Called p (inl e) :: Printed Planning :: h)
     | inr plan =>
         let h2 := agent_ready src user_input plan h in
         let r := oracle E h2 (AgentRun user_input) in
         match r with
         | inl e => (inl e, Called (AgentRun user_input) r :: h2)
         | inr result =>
             if str_containing "Found 0" result
             then (inl (ValueError "No documents found"),
                   Called (AgentRun user_input) r :: h2)
             else (inr result,
                   Printed (Result result) :: Called (AgentRun user_input) r :: h2)
         end
     end).
Proof.
  unfold agent_attempt, agent_ready, bind, invoke, print, raise, ret. cbv zeta.
  destruct (oracle E (Printed Planning :: h)
              (LlmInvoke (PlanPrompt src user_input))) as [e | plan];
    [reflexivity | ].
  destruct (oracle E _ (AgentRun user_input)) as [e | result]; [reflexivity | ].
  destruct (str_containing "Found 0" result); reflexivity.
Qed.

Lemma str_containing_false (needle : string) (v : value) :
  str_containing needle v = false <->
  forall pre post, v <> VStr (pre ++ needle ++ post).
Proof.
  split.
  - intros H pre post ->. cbn in H. now rewrite contains_append in H.
  - intros H. destruct v; try reflexivity. cbn.
    destruct (contains needle s) eqn:Hc; [ | reflexivity].
    destruct (contains_inv _ _ Hc) as [pre [post ->]]. now destruct (H pre post).
Qed.

(** X10: a request ends with the answer of the tool agent exactly when the
    planning completion returned, [agent.run] returned [r], and [r] is not
    a text with ["Found 0"] somewhere in it.  Any other value is final as
    the agent gave it, an empty list or an empty text included: the
    fallback path never runs for it. *)
Theorem main_request_by_agent (E : env) (src : script)
  (suggest : string -> M value)
  (try_match try_aggregation : value -> value -> string -> value -> M value)
  (user_input : string) (h h' : history) (r : value) :
  main_request E src suggest try_match try_aggregation user_input h
  = (inr (ByAgent r), h')
  <->
  exists plan,
    oracle E (Printed Planning :: h) (LlmInvoke (PlanPrompt src user_input))
    = inr plan
    /\ oracle E (agent_ready src user_input plan h) (AgentRun user_input) = inr r
    /\ (forall pre post, r <> VStr (pre ++ "Found 0" ++ post))
    /\ h' = Printed (Result r) :: Called (AgentRun user_input) (inr r)
            :: agent_ready src user_input plan h.
Proof.
  unfold main_request, bind at 1. unfold attempt at 1.
  rewrite agent_attempt_run. cbv zeta. split.
  - destruct (oracle E (Printed Planning :: h)
                (LlmInvoke (PlanPrompt src user_input))) as [e | plan] eqn:Hplan.
    { unfold bind, print. intros H. now apply fallback_reports in H. }
    destruct (oracle E (agent_ready src user_input plan h)
                (AgentRun user_input)) as [e | result] eqn:Hrun.
    { unfold bind, print. intros H. now apply fallback_reports in H. }
    destruct (str_containing "Found 0" result) eqn:Hs.
    { unfold bind, print. intros H. now apply fallback_reports in H. }
    unfold ret. intros [= <- <-]. exists plan.
    split; [reflexivity | split; [exact Hrun | split; [ | reflexivity]]].
    now apply str_containing_false.
  - intros [plan [-> [-> [Hr ->]]]].
    apply str_containing_false in Hr. now rewrite Hr.
Qed.

(** X11: when [agent.run] returns a text that holds ["Found 0"] anywhere,
    after whatever prefix and before whatever suffix, the text is not
    printed as a result: [main] prints the fallback line with
    ValueError("No documents found") and runs the retry path. *)
Theorem found_zero_text_falls_back (E : env) (src : script)
  (suggest : string -> M value)
  (try_match try_aggregation : value -> value -> string -> value -> M value)
  (user_input : string) (h : history) (plan : value) (pre post : string) :
  oracle E (Printed Planning :: h) (LlmInvoke (PlanPrompt src user_input))
  = inr plan ->
  oracle E (agent_ready src user_input plan h) (AgentRun user_input)
  = inr (VStr (pre ++ "Found 0" ++ post)) ->
  main_request E src suggest try_match try_aggregation user_input h
  = fallback E suggest try_match try_aggregation user_input
      (Printed (AgentFallback (ValueError "No documents found"))
       :: Called (AgentRun user_input) (inr (VStr (pre ++ "Found 0" ++ post)))
       :: agent_ready src user_input plan h).
Proof.
  intros Hplan Hrun.
  unfold main_request, bind at 1. unfold attempt at 1.
  rewrite agent_attempt_run. cbv zeta. rewrite Hplan, Hrun.
  cbn [str_containing]. rewrite contains_append. reflexivity.
Qed.

Lemma found_zero_text_falls_back_sample :
  Agent.main_request Cases.sentinel_world Sample.request []
  = fallback Cases.sentinel_world
      (Agent.suggest_db_collection_candidates Cases.sentinel_world)
      (Agent.try_query_with_match Cases.sentinel_world)
      (Agent.try_query_with_aggregation Cases.sentinel_world)
      Sample.request
      (Printed (AgentFallback (ValueError "No documents found"))
       :: Called (AgentRun Sample.request)
            (inr (VStr "Lost and Found 07: three entries"))
       :: agent_ready AgentPy Sample.request (VStr "1. count the cars") []).
Proof.
  apply (found_zero_text_falls_back Cases.sentinel_world AgentPy
           (Agent.suggest_db_collection_candidates Cases.sentinel_world)
           (Agent.try_query_with_match Cases.sentinel_world)
           (Agent.try_query_with_aggregation Cases.sentinel_world)
           Sample.request [] (VStr "1. count the cars")
           "Lost and " "7: three entries");
    reflexivity.
Defined.

(** X12: when the planning completion raises, [agent.run] is not called at
    all: [main] prints the fallback line with that error and runs the retry
    path on a history that holds no agent call. *)
Theorem planning_failure_skips_agent (E : env) (src : script)
  (suggest : string -> M value)
  (try_match try_aggregation : value -> value -> string -> value -> M value)
  (user_input : string) (h : history) (e : exn) :
  oracle E (Printed Planning :: h) (LlmInvoke (PlanPrompt src user_input))
  = inl e ->
  main_request E src suggest try_match try_aggregation user_input h
  = fallback E suggest try_match try_aggregation user_input
      (Printed (AgentFallback e)
       :: Called (LlmInvoke (PlanPrompt src user_input)) (inl e)
       :: Printed Planning :: h).
Proof.
  intros Hplan.
  unfold main_request, bind at 1. unfold attempt at 1.
  rewrite agent_attempt_run. cbv zeta. now rewrite Hplan.
Qed.

Lemma planning_failure_skips_agent_sample :
  Agent.main_request Cases.dark_world Sample.request []
  = fallback Cases.dark_world
      (Agent.suggest_db_collection_candidates Cases.dark_world)
      (Agent.try_query_with_match Cases.dark_world)
      (Agent.try_query_with_aggregation Cases.dark_world)
      Sample.request
      [Printed (AgentFallback (External "connection refused"));
       Called (LlmInvoke (PlanPrompt AgentPy Sample.request)) Sample.offline;
       Printed Planning].
Proof.
  apply (planning_failure_skips_agent Cases.dark_world AgentPy
           (Agent.suggest_db_collection_candidates Cases.dark_world)
           (Agent.try_query_with_match Cases.dark_world)
           (Agent.try_query_with_aggregation Cases.dark_world)
           Sample.request [] (External "connection refused")).
  reflexivity.
Defined.

Lemma main_request_by_agent_sample :
  Agent.main_request Cases.empty_agent_world Sample.request []
  = (inr (ByAgent (VList [])),
     Printed (Result (VList []))
     :: Called (AgentRun Sample.request) (inr (VList []))
     :: agent_ready AgentPy Sample.request (VStr "1. count the cars") []).
Proof.
  apply (proj2 (main_request_by_agent Cases.empty_agent_world AgentPy
                  (Agent.suggest_db_collection_candidates
                     Cases.empty_agent_world)
                  (Agent.try_query_with_match Cases.empty_agent_world)
                  (Agent.try_query_with_aggregation Cases.empty_agent_world)
                  Sample.request [] _ (VList []))).
  exists (VStr "1. count the cars").
  split; [reflexivity | split; [reflexivity | split; [ | reflexivity]]].
  intros pre post. discriminate.
Defined.

(* ================================================================== *)
(** ** The retry path after a ranking failure *)

(** X13: in both scripts, when the list-databases call raises, the retry
    path does not stop: the candidate loop runs on the one default
    candidate, [car_database.cars], and the completion was not asked to
    rank. *)
Theorem fallback_on_ranking_failure (src : script) (E : env)
  (try_match try_aggregation : value -> value -> string -> value -> M value)
  (user_input : string) (h : history) (e : exn) :
  oracle E h ListDatabases = inl e ->
  fallback E (suggest_of src E) try_match try_aggregation user_input h
  = candidate_loop E try_match try_aggregation user_input
      [candidate_of (VStr "car_database", VStr "cars")]
      (Printed (SuggestionFailed e) :: Called ListDatabases (inl e) :: h).
Proof.
  intros He. unfold fallback, bind at 1.
  assert (Hs : suggest_of src E user_input h
               = (inr default_candidates,
                  Printed (SuggestionFailed e)
                  :: Called ListDatabases (inl e) :: h)).
  { destruct src; cbn [suggest_of];
      unfold Agent.suggest_db_collection_candidates,
        GG.suggest_db_collection_candidates, bind, attempt, invoke, print, ret;
      now rewrite He. }
  rewrite Hs. reflexivity.
Qed.

Lemma fallback_on_ranking_failure_sample :
  fallback Cases.dark_world (suggest_of GgPy Cases.dark_world)
    (GG.try_query_with_match Cases.dark_world)
    (GG.try_query_with_aggregation Cases.dark_world) Sample.request []
  = candidate_loop Cases.dark_world
      (GG.try_query_with_match Cases.dark_world)
      (GG.try_query_with_aggregation Cases.dark_world) Sample.request
      [candidate_of (VStr "car_database", VStr "cars")]
      [Printed (SuggestionFailed (External "connection refused"));
       Called ListDatabases Sample.offline].
Proof.
  apply (fallback_on_ranking_failure GgPy Cases.dark_world
           (GG.try_query_with_match Cases.dark_world)
           (GG.try_query_with_aggregation Cases.dark_world)
           Sample.request [] (External "connection refused")).
  reflexivity.
Defined.

(* ================================================================== *)
(** ** The inventory loops of the two scripts *)

(** X15: whenever the inventory loop of agent.py completes, the loop of
    gg.py, run on the same databases from the same history, builds the same
    inventory with the same calls: the handler gg.py adds changes nothing
    on a run without errors. *)
Theorem agent_collect_refines_gg (E : env) (db_names : list value) :
  forall (m m' : inventory) (h h' : history),
    Agent.collect E db_names m h = (inr m', h') ->
    GG.collect E db_names m h = (inr m', h').
Proof.
  induction db_names as [ | db rest IH ]; intros m m' h h' H.
  - exact H.
  - cbn [Agent.collect GG.collect] in *.
    unfold bind, attempt, invoke, lift in *.
    destruct (oracle E h (ListCollections db)) as [e | colls]; [discriminate | ].
    destruct (_ <-- names_of colls "collections" ;; _)%res as [e | m1];
      [discriminate | ].
    now apply IH.
Qed.

Lemma agent_collect_refines_gg_sample :
  GG.collect Sample.keyless_world [VStr "shop"; Sample.library] [] []
  = (inr Sample.full_inventory,
     [Called (ListCollections Sample.library)
        (inr Sample.collections_of_library);
      Called (ListCollections (VStr "shop"))
        (inr Sample.collections_of_library)]).
Proof.
  apply (agent_collect_refines_gg Sample.keyless_world
           [VStr "shop"; Sample.library]).
  reflexivity.
Defined.

Lemma inventory_set_fresh (m : inventory) (ks : list string) (k : string)
  (v : value) :
  map fst m = map VStr ks -> ~ In k ks ->
  inventory_set m (VStr k) v = m ++ [(VStr k, v)].
Proof.
  revert ks. induction m as [ | [k' v'] m IH ]; intros ks Hks Hk.
  - reflexivity.
  - destruct ks as [ | k0 ks]; [discriminate | ].
    cbn in Hks. injection Hks as Hk' Hks. cbn [fst] in Hk'. subst k'.
    cbn [inventory_set key_eqb].
    destruct (String.eqb_spec k k0) as [-> | Hne].
    + exfalso. apply Hk. now left.
    + cbn. f_equal. apply (IH ks Hks). intros Hin. apply Hk. now right.
Qed.

Section GgInventory.

Variable E : env.
Variable listing : value -> res value.
Hypothesis timeless : forall h db, oracle E h (ListCollections db) = listing db.

(** An entry of the inventory: a database with the names of its
    collections as the tool listed them. *)
Let listed (entry : value * value) : Prop :=
  exists colls names,
    listing (fst entry) = inr colls
    /\ names_of colls "collections" = inr names
    /\ snd entry = VList names.

Lemma gg_collect_keys (names : list string) :
  forall (m0 : inventory) (ks : list string) (h : history),
    map fst m0 = map VStr ks ->
    NoDup (ks ++ names) ->
    Forall listed m0 ->
    exists m h',
      GG.collect E (map VStr names) m0 h = (inr m, h')
      /\ map fst m
         = map VStr
             (ks ++ filter (fun n => lists_collections (listing (VStr n))) names)
      /\ Forall listed m.
Proof.
  induction names as [ | n names IH ]; intros m0 ks h Hks Hnd Hm0.
  - exists m0, h. cbn. rewrite app_nil_r. now repeat split.
  - cbn [map GG.collect filter]. unfold bind, attempt, invoke, lift.
    rewrite timeless.
    assert (Hrest : NoDup (ks ++ names)) by exact (NoDup_remove_1 _ _ _ Hnd).
    unfold lists_collections at 1.
    destruct (listing (VStr n)) as [e | colls] eqn:Hl; [now apply IH | ].
    destruct (names_of colls "collections") as [e | cn] eqn:Hn;
      cbn [rbind]; [now apply IH | ].
    cbn [setitem hashable].
    assert (Hfresh : ~ In n ks).
    { apply NoDup_remove_2 in Hnd. intros Hin. apply Hnd.
      apply in_or_app. now left. }
    rewrite (inventory_set_fresh m0 ks n _ Hks Hfresh).
    destruct (IH (m0 ++ [(VStr n, VList cn)]) (ks ++ [n])
                (Called (ListCollections (VStr n)) (inr colls) :: h))
      as [m [h' [Hc [Hk Hall]]]].
    + rewrite !map_app, Hks. reflexivity.
    + rewrite <- app_assoc. exact Hnd.
    + apply Forall_app. split; [exact Hm0 | ].
      constructor; [ | constructor]. now exists colls, cn.
    + exists m, h'. rewrite <- app_assoc in Hk. now repeat split.
Qed.

End GgInventory.

(** X16: in gg.py, when the list-collections tool answers each database
    the same way at any time and the database names are pairwise different
    texts, the inventory loop never raises, and the inventory it builds
    holds exactly the databases whose collections could be listed, in the
    order of the list-databases answer, each with the collection names the
    tool listed for it. *)
Theorem gg_inventory_lists_reachable (E : env) (listing : value -> res value)
  (names : list string) (h : history) :
  (forall h0 db, oracle E h0 (ListCollections db) = listing db) ->
  distinct names = true ->
  exists m h',
    GG.collect E (map VStr names) [] h = (inr m, h')
    /\ map fst m
       = map VStr (filter (fun n => lists_collections (listing (VStr n))) names)
    /\ Forall (fun entry =>
                 exists colls cnames,
                   listing (fst entry) = inr colls
                   /\ names_of colls "collections" = inr cnames
                   /\ snd entry = VList cnames) m.
Proof.
  intros Htimeless Hd.
  exact (gg_collect_keys E listing Htimeless names [] [] h eq_refl
           (distinct_NoDup names Hd) (Forall_nil _)).
Qed.

Lemma gg_inventory_lists_reachable_sample :
  exists m h',
    GG.collect Cases.partial_world
      (map VStr ["library"; "shop"; "archive"; "cars"]) [] [] = (inr m, h')
    /\ map fst m = [VStr "library"; VStr "cars"]
    /\ Forall (fun entry =>
                 exists colls cnames,
                   Cases.partial_listing (fst entry) = inr colls
                   /\ names_of colls "collections" = inr cnames
                   /\ snd entry = VList cnames) m.
Proof.
  apply (gg_inventory_lists_reachable Cases.partial_world
           Cases.partial_listing ["library"; "shop"; "archive"; "cars"] []);
    reflexivity.
Defined.

(* ================================================================== *)
(** ** try_query_with_match when nothing fails *)

(** X17: in both scripts, when the completion returns a text that parses,
    the rewrite of the parsed filter returns [final] and the aggregation
    collaborator returns a result that is not a text holding the script's
    zero-result mark (["Found 0"] in agent.py, ["F`ound 0"] in gg.py),
    [try_query_with_match] has submitted the one-stage pipeline
    [[{"$match": final}]] and returns the collaborator's result as it is,
    without a failure line. *)
Theorem try_match_of_success (src : script) (E : env) (db coll : value)
  (user_input : string) (schema : value) (h : history)
  (content raw final result : value) :
  let h1 := Printed (TryingMatch db coll) :: h in
  let h2 := Called (match_prompt src user_input schema) (inr content) :: h1 in
  let q := Aggregate db coll (VList [VDict [("$match", final)]]) in
  oracle E h1 (match_prompt src user_input schema) = inr content ->
  loads_content E content = inr raw ->
  make_case_insensitive raw schema = inr final ->
  oracle E h2 q = inr result ->
  (forall pre post, result <> VStr (pre ++ sentinel src ++ post)) ->
  try_match_of src E db coll user_input schema h
  = (inr result, Called q (inr result) :: h2).
Proof.
  intros h1 h2 q Hllm Hparse Hrewrite Hagg Hmark. subst h1 h2 q.
  apply str_containing_false in Hmark. unfold match_prompt in *.
  destruct src; cbn [try_match_of sentinel] in *;
    unfold Agent.try_query_with_match, GG.try_query_with_match,
      bind, attempt, print, invoke, lift, ret, raise;
    now rewrite Hllm, Hparse, Hrewrite, Hagg, Hmark.
Qed.

Lemma try_match_of_success_sample :
  GG.try_query_with_match Sample.zero_matches_world
    Sample.car_database Sample.cars Sample.request Sample.cars_schema []
  = (inr (VStr "Found 0 documents"),
     [Called (Aggregate Sample.car_database Sample.cars
                (VList [VDict [("$match", VDict [])]]))
        (inr (VStr "Found 0 documents"));
      Called (LlmInvoke (MatchPrompt GgPy Sample.request Sample.cars_schema))
        (inr (VStr "{}"));
      Printed (TryingMatch Sample.car_database Sample.cars)]).
Proof.
  apply (try_match_of_success GgPy Sample.zero_matches_world
           Sample.car_database Sample.cars Sample.request Sample.cars_schema []
           (VStr "{}") (VDict []) (VDict []) (VStr "Found 0 documents"));
    try reflexivity.
  apply str_containing_false. reflexivity.
Defined.

(* ================================================================== *)
(** ** The inventory loop of agent.py *)

Lemma agent_collect_app (E : env) (listed rest : list value) :
  forall (m : inventory) (h : history),
    Agent.collect E (listed ++ rest) m h
    = match Agent.collect E listed m h with
      | (inl e, h1) => (inl e, h1)
      | (inr m1, h1) => Agent.collect E rest m1 h1
      end.
Proof.
  induction listed as [ | db listed IH ]; intros m h.
  - reflexivity.
  - cbn [app Agent.collect]. unfold bind, invoke, lift.
    destruct (oracle E h (ListCollections db)) as [e | colls]; [reflexivity | ].
    destruct (_ <-- names_of colls "collections" ;; _)%res as [e | m1];
      [reflexivity | ].
    apply IH.
Qed.

(** X18: the inventory loop of agent.py stops at the first database whose
    collections cannot be listed: it raises that error, and none of the
    databases after it is asked for. *)
Theorem agent_collect_stops_at_first_failure (E : env)
  (listed : list value) (db : value) (rest : list value)
  (m m1 : inventory) (h h1 : history) (e : exn) :
  Agent.collect E listed m h = (inr m1, h1) ->
  oracle E h1 (ListCollections db) = inl e ->
  Agent.collect E (listed ++ db :: rest) m h
  = (inl e, Called (ListCollections db) (inl e) :: h1).
Proof.
  intros Hlisted He. rewrite agent_collect_app, Hlisted.
  cbn [Agent.collect]. unfold bind, invoke. now rewrite He.
Qed.

Lemma agent_collect_stops_at_first_failure_sample :
  Agent.collect Cases.partial_world
    ([VStr "library"] ++ VStr "shop" :: [VStr "archive"; VStr "cars"]) [] []
  = (inl (External "connection refused"),
     [Called (ListCollections (VStr "shop")) Sample.offline;
      Called (ListCollections (VStr "library"))
        (inr Sample.collections_of_library)]).
Proof.
  apply (agent_collect_stops_at_first_failure Cases.partial_world
           [VStr "library"] (VStr "shop") [VStr "archive"; VStr "cars"]
           [] [(VStr "library", VList [Sample.books])] []
           [Called (ListCollections (VStr "library"))
              (inr Sample.collections_of_library)]
           (External "connection refused"));
    reflexivity.
Defined.

(* ================================================================== *)
(** ** The first success, and the first malformed candidate *)

(** X19: when the loop of [main] reaches a candidate whose schema loads and
    [try_query_with_match] returns a truthy value [m], the loop ends with
    [m], printed as the match result of that candidate: the aggregation
    strategy does not run and the candidates after it are not looked at,
    whatever that strategy and those candidates are. *)
Theorem candidate_loop_match_success (E : env)
  (try_match try_aggregation : value -> value -> string -> value -> M value)
  (user_input : string) (tried : list value) (c : value) (rest : list value)
  (h0 h h1 h2 : history) (db coll schema m : value) :
  candidate_loop E try_match try_aggregation user_input tried h0
  = (inr AllExhausted, Printed AllRetriesFailed :: h) ->
  getitem c "database" = inr db ->
  getitem c "collection" = inr coll ->
  get_collection_schema E db coll h = (inr schema, h1) ->
  try_match db coll user_input schema h1 = (inr m, h2) ->
  truthy m = true ->
  candidate_loop E try_match try_aggregation user_input (tried ++ c :: rest) h0
  = (inr (ByMatch m), Printed (SmartMatchResult db coll m) :: h2).
Proof.
  intros Htried Hdb Hcoll Hschema Hm Htruthy.
  rewrite (candidate_loop_app _ _ _ _ _ _ _ _ Htried), candidate_loop_cons.
  rewrite (candidate_body_schema_ok _ _ _ _ _ _ _ _ _ _ Hdb Hcoll Hschema).
  now rewrite Hm, Htruthy.
Qed.

Lemma candidate_loop_match_success_sample :
  candidate_loop Sample.end_to_end_world
    (Agent.try_query_with_match Sample.end_to_end_world)
    (Agent.try_query_with_aggregation Sample.end_to_end_world)
    Sample.request ([] ++ Sample.car_candidate :: [Sample.shop_candidate]) []
  = (inr (ByMatch Sample.two_documents),
     Printed (SmartMatchResult Sample.car_database Sample.cars
                Sample.two_documents)
     :: snd (Agent.try_query_with_match Sample.end_to_end_world
               Sample.car_database Sample.cars Sample.request
               Sample.cars_schema
               [Called (CollectionSchema Sample.car_database Sample.cars)
                  (inr Sample.cars_description)])).
Proof.
  apply (candidate_loop_match_success Sample.end_to_end_world
           (Agent.try_query_with_match Sample.end_to_end_world)
           (Agent.try_query_with_aggregation Sample.end_to_end_world)
           Sample.request [] Sample.car_candidate [Sample.shop_candidate]
           [] []
           [Called (CollectionSchema Sample.car_database Sample.cars)
              (inr Sample.cars_description)]
           _ Sample.car_database Sample.cars Sample.cars_schema);
    reflexivity.
Defined.

(** X20: when the loop of [main] reaches a candidate from which
    ["database"] or ["collection"] cannot be read (a dict without the key:
    KeyError; a text, a list, a number: TypeError), the exception leaves
    the loop at once: nothing is printed for that candidate, no collaborator
    is called for it, and the candidates after it are not tried. *)
Theorem candidate_loop_unreadable_candidate (E : env)
  (try_match try_aggregation : value -> value -> string -> value -> M value)
  (user_input : string) (tried : list value) (c : value) (rest : list value)
  (h0 h : history) (e : exn) :
  candidate_loop E try_match try_aggregation user_input tried h0
  = (inr AllExhausted, Printed AllRetriesFailed :: h) ->
  getitem c "database" = inl e
  \/ (exists db, getitem c "database" = inr db)
     /\ getitem c "collection" = inl e ->
  candidate_loop E try_match try_aggregation user_input (tried ++ c :: rest) h0
  = (inl e, h).
Proof.
  intros Htried Hc.
  rewrite (candidate_loop_app _ _ _ _ _ _ _ _ Htried), candidate_loop_cons.
  unfold candidate_body, bind, lift.
  destruct Hc as [-> | [[db ->] ->]]; reflexivity.
Qed.

Lemma candidate_loop_unreadable_candidate_sample :
  candidate_loop Sample.shop_world
    (Agent.try_query_with_match Sample.shop_world)
    (Agent.try_query_with_aggregation Sample.shop_world)
    Sample.request
    ([Sample.shop_candidate]
       ++ VDict [("database", VStr "car_database")] :: [Sample.car_candidate])
    []
  = (inl (KeyError "collection"), Sample.after_shop).
Proof.
  apply (candidate_loop_unreadable_candidate Sample.shop_world
           (Agent.try_query_with_match Sample.shop_world)
           (Agent.try_query_with_aggregation Sample.shop_world)
           Sample.request [Sample.shop_candidate]
           (VDict [("database", VStr "car_database")]) [Sample.car_candidate]
           [] Sample.after_shop (KeyError "collection")).
  - reflexivity.
  - right. split; [now exists (VStr "car_database") | reflexivity].
Defined.
